(** * Storefront backend: catalog reads and the cart engine

    A shallow embedding of [main.py] (FastAPI routes over a MongoDB
    handle).  Documents are Python dictionaries, modelled as finite maps
    from field names to Python values; a collection is the list of its
    documents in the store's natural order; every route is a function of
    the database handle (which may be [None]) and of its validated
    payload, returning either a response or the raised exception, and
    for the two writing routes the database after the call. *)

From Stdlib Require Import ZArith Ascii String QArith.
From stdpp Require Import base strings option list gmap.

Set Warnings "-register-all".
Close Scope Q_scope.
Open Scope Z_scope.

(** ** The Python runtime the routes rely on *)

(** Python [float]: the routes only convert integers, add, multiply,
    compare and call [round(x, 2)].  The arithmetic is kept abstract, so
    nothing proved below depends on a property of IEEE rounding. *)
Class PyFloat := {
  float : Type;
  float_of_Z : Z → float;
  fadd : float → float → float;
  fmul : float → float → float;
  fltb : float → float → bool;
  round2 : float → float;
}.

(** [bson.ObjectId]: [ObjectId s] is [None] when the constructor raises
    [InvalidId] on the string [s]. *)
Class Bson := {
  oid : Type;
  oid_eq_dec :: EqDecision oid;
  ObjectId : string → option oid;
}.

(** Python values as they are stored in, and decoded from, documents. *)
Inductive value `{PyFloat, Bson} : Type :=
  | VNone
  | VBool (b : bool)
  | VInt (n : Z)
  | VFloat (x : float)
  | VStr (s : string)
  | VOid (o : oid)
  | VList (l : list value)
  | VDict (d : gmap string value).

Abbreviation dict := (gmap string value).

(** A filter document, and a database: its collections by name. *)
Abbreviation query := (list (string * value)).
Abbreviation database := (gmap string (list dict)).

(** The builtin [str]. *)
Class PyStr `{PyFloat, Bson} := { py_str : value → string }.

(** Exceptions a route can raise. *)
Inductive exn : Type :=
  | HTTPException (status_code : Z) (detail : string)
  | InvalidId
  | ValueError (message : string)
  | KeyError (key : string)
  | TypeError
  | AttributeError.

Inductive res (A : Type) : Type :=
  | Ok (a : A)
  | Raise (e : exn).
Arguments Ok {A} a.
Arguments Raise {A} e.

Definition res_bind {A B} (r : res A) (k : A → res B) : res B :=
  match r with
  | Ok a => k a
  | Raise e => Raise e
  end.

Notation "x ←! r ; k" := (res_bind r (fun x => k))
  (at level 20, r at level 100, k at level 200, right associativity,
   format "x  ←!  r ;  '/' k").

(** [try: body except Exception: handler]. *)
Definition try_except {A} (body : res A) (handler : exn → res A) : res A :=
  match body with
  | Ok a => Ok a
  | Raise e => handler e
  end.

Section Routes.
Context `{PyStr}.

(** *** Truthiness, [dict.get], iteration *)

(** A value that is [None] or a dictionary, when it is truthy: [not d]
    holds of [None] and of the empty dictionary. *)
Definition truthy (d : option dict) : option dict :=
  match d with
  | None => None
  | Some m => if bool_decide (size m = 0%nat) then None else Some m
  end.

(** [d.get(k)]: a missing key reads as [None]. *)
Definition get (d : dict) (k : string) : value := default VNone (d !! k).

(** [d.get(k, dflt)]. *)
Definition get_default (d : dict) (k : string) (dflt : value) : value :=
  default dflt (d !! k).

(** [d[k]]. *)
Definition getitem (d : dict) (k : string) : res value :=
  match d !! k with
  | Some v => Ok v
  | None => Raise (KeyError k)
  end.

(** [i.get]: only dictionaries have the method. *)
Definition as_dict (v : value) : res dict :=
  match v with
  | VDict d => Ok d
  | _ => Raise AttributeError
  end.

Fixpoint chars (s : string) : list value :=
  match s with
  | EmptyString => []
  | String c s' => VStr (String c EmptyString) :: chars s'
  end.

(** [for i in v]: a list yields its elements, a string its characters,
    a dictionary its keys; nothing else is iterable. *)
Definition py_iter (v : value) : res (list value) :=
  match v with
  | VList l => Ok l
  | VStr s => Ok (chars s)
  | VDict d => Ok ((λ kv, VStr kv.1) <$> map_to_list d)
  | _ => Raise TypeError
  end.

(** A value that is looped over and then appended to: only a list
    survives both; a string or dictionary fails at [.get] on its first
    element or at [.append], the rest at the loop header. *)
Definition as_list (v : value) : res (list value) :=
  match v with
  | VList l => Ok l
  | VStr _ | VDict _ => Raise AttributeError
  | _ => Raise TypeError
  end.

Fixpoint mapM {A B} (f : A → res B) (l : list A) : res (list B) :=
  match l with
  | [] => Ok []
  | a :: l' => b ←! f a; bs ←! mapM f l'; Ok (b :: bs)
  end.

(** *** Numbers *)

Inductive num : Type :=
  | NInt (n : Z)
  | NFloat (x : float).

(** The numeric reading of a value; [bool] is a subclass of [int]. *)
Definition as_num (v : value) : res num :=
  match v with
  | VBool b => Ok (NInt (Z.b2z b))
  | VInt n => Ok (NInt n)
  | VFloat x => Ok (NFloat x)
  | _ => Raise TypeError
  end.

Definition num_value (a : num) : value :=
  match a with
  | NInt n => VInt n
  | NFloat x => VFloat x
  end.

Definition to_float (a : num) : float :=
  match a with
  | NInt n => float_of_Z n
  | NFloat x => x
  end.

Definition num_add (a b : num) : num :=
  match a, b with
  | NInt x, NInt y => NInt (x + y)
  | _, _ => NFloat (fadd (to_float a) (to_float b))
  end.

Definition num_mul (a b : num) : num :=
  match a, b with
  | NInt x, NInt y => NInt (x * y)
  | _, _ => NFloat (fmul (to_float a) (to_float b))
  end.

(** [min(10, a)]: the second argument wins only when it is smaller. *)
Definition min10 (a : num) : num :=
  match a with
  | NInt n => NInt (Z.min 10 n)
  | NFloat x => if fltb x (float_of_Z 10) then NFloat x else NInt 10
  end.

(** [sum(...)], from the integer [0]. *)
Definition py_sum (l : list num) : num := fold_left num_add l (NInt 0).

(** [round(a, 2)]: an integer is returned as it is. *)
Definition py_round2 (a : num) : num :=
  match a with
  | NInt n => NInt n
  | NFloat x => NFloat (round2 x)
  end.

(** *** Comparison with a string operand *)

(** [v == s] for a [str] operand. *)
Definition eq_str (v : value) (s : string) : bool :=
  match v with
  | VStr t => bool_decide (t = s)
  | _ => false
  end.

(** [v == o] for an [Optional[str]] operand. *)
Definition eq_opt_str (v : value) (o : option string) : bool :=
  match o with
  | Some s => eq_str v s
  | None => match v with VNone => true | _ => false end
  end.

(** ** The document store (pymongo) *)


(** Equality filter on one field.  Every operand the routes send is a
    scalar (a flag, a session string, a document identifier); the store
    matches it against a stored scalar of the same type and content. *)
Definition field_is (stored operand : value) : bool :=
  match stored, operand with
  | VNone, VNone => true
  | VBool a, VBool b => bool_decide (a = b)
  | VInt a, VInt b => bool_decide (a = b)
  | VStr a, VStr b => bool_decide (a = b)
  | VOid a, VOid b => bool_decide (a = b)
  | _, _ => false
  end.

Definition matches (q : query) (d : dict) : bool :=
  forallb (λ kv, match d !! kv.1 with
                 | Some w => field_is w kv.2
                 | None => false
                 end) q.

(** [db.<name>]: a collection that was never written is empty. *)
Definition collection (db : database) (name : string) : list dict :=
  default [] (db !! name).

Definition find (c : list dict) (q : query) : list dict :=
  filter (λ d, matches q d) c.

Definition limit (n : nat) (c : list dict) : list dict := take n c.

Definition find_one (c : list dict) (q : query) : option dict :=
  head (find c q).

(** [update_one(q, {"$set": {k: v}})] on the documents of a collection. *)
Fixpoint update_one_set (c : list dict) (q : query) (k : string) (v : value)
  : list dict :=
  match c with
  | [] => []
  | d :: c' =>
      if matches q d then <[k := v]> d :: c'
      else d :: update_one_set c' q k v
  end.

Definition update_one (name : string) (q : query) (k : string) (v : value)
    (db : database) : database :=
  alter (λ c, update_one_set c q k v) name db.

(** Modelled from the spec: [create_document] of the [database] module,
    which is not among the sources.  Section 4.4, step 2 of [add_item]:
    "If no Cart exists for session_id, create one with items = [item]".
    The document is added to the named collection after the existing
    ones, under the identifier [new_id] the store assigns to it. *)
Definition create_document (name : string) (data : dict) (new_id : oid)
    (db : database) : database :=
  <[name := collection db name ++ [<["_id" := VOid new_id]> data]]> db.

(** ** Utility *)

(** [to_public_doc]: [{**doc}], then [d["id"] = str(d.pop("_id"))] when
    the key is there. *)
Definition to_public_doc (doc : option dict) : option dict :=
  match truthy doc with
  | None => doc
  | Some d =>
      match d !! "_id" with
      | Some v => Some (<["id" := VStr (py_str v)]> (delete "_id" d))
      | None => Some d
      end
  end.

(** ** Request models *)

Record CartItem : Type := {
  product_id : string;
  title : string;
  price : float;
  image : option string;
  quantity : Z;
  variant : option string;
}.

Record CartUpsert : Type := {
  session_id : string;
  item : CartItem;
}.

Record CartRemove : Type := {
  remove_session_id : string;
  remove_product_id : string;
  remove_variant : option string;
}.

(** [ObjectIdStr.validate]: the string is kept when [ObjectId] accepts it. *)
Definition ObjectIdStr_validate (v : string) : res string :=
  match ObjectId v with
  | Some _ => Ok v
  | None => Raise (ValueError "Invalid ObjectId")
  end.

(** What validation of a [CartItem] enforces: [product_id] passes
    [ObjectIdStr.validate] and [quantity] has [ge=1, le=10]. *)
Definition valid_CartItem (i : CartItem) : Prop :=
  is_Some (ObjectId (product_id i)) ∧ 1 ≤ quantity i ≤ 10.

Definition valid_CartRemove (p : CartRemove) : Prop :=
  is_Some (ObjectId (remove_product_id p)).

Definition optional_str (o : option string) : value :=
  match o with
  | Some s => VStr s
  | None => VNone
  end.

(** [payload.item.model_dump()]. *)
Definition model_dump (i : CartItem) : dict :=
  <["product_id" := VStr (product_id i)]>
  (<["title" := VStr (title i)]>
  (<["price" := VFloat (price i)]>
  (<["image" := optional_str (image i)]>
  (<["quantity" := VInt (quantity i)]>
  (<["variant" := optional_str (variant i)]> ∅))))).

(** ** Routes *)

Definition not_found : exn := HTTPException 404 "Not found".
Definition invalid_id : exn := HTTPException 400 "Invalid id".
Definition database_unavailable : exn := HTTPException 500 "Database unavailable".

Definition optional_dict (o : option dict) : value :=
  match o with
  | Some d => VDict d
  | None => VNone
  end.

(** [GET /api/products]. *)
Definition list_products (db : option database) (featured : option bool) : dict :=
  match db with
  | None => {["products" := VList []]}
  | Some st =>
      let query : query :=
        match featured with
        | Some b => [("featured", VBool b)]
        | None => []
        end in
      let products := limit 50 (find (collection st "product") query) in
      {["products" :=
          VList ((λ p, optional_dict (to_public_doc (Some p))) <$> products)]}
  end.

(** [GET /api/products/{product_id}].  Everything raised inside [try],
    the [HTTPException(404)] of the missing document included, reaches
    [except Exception]. *)
Definition get_product (db : option database) (product_id : string)
  : res (option dict) :=
  match db with
  | None => Raise not_found
  | Some st =>
      try_except
        (match ObjectId product_id with
         | None => Raise InvalidId
         | Some o =>
             let prod := find_one (collection st "product") [("_id", VOid o)] in
             match truthy prod with
             | None => Raise not_found
             | Some _ => Ok (to_public_doc prod)
             end
         end)
        (λ _, Raise invalid_id)
  end.

Definition empty_cart_view : dict :=
  <["items" := VList []]> {["subtotal" := VFloat (float_of_Z 0)]}.

(** [i.get("price", 0) * i.get("quantity", 1)].  With a string or list
    operand Python builds a repeated sequence here and raises the same
    [TypeError] one step later, when [sum] adds it to its integer
    accumulator. *)
Definition line_total (i : value) : res num :=
  d ←! as_dict i;
  p ←! as_num (get_default d "price" (VInt 0));
  q ←! as_num (get_default d "quantity" (VInt 1));
  Ok (num_mul p q).

(** [GET /api/cart]. *)
Definition get_cart (db : option database) (session_id : string) : res dict :=
  match db with
  | None => Ok empty_cart_view
  | Some st =>
      let cart := find_one (collection st "cart") [("session_id", VStr session_id)] in
      match truthy cart with
      | None => Ok empty_cart_view
      | Some cart =>
          let items := get_default cart "items" (VList []) in
          lines ←! py_iter items;
          totals ←! mapM line_total lines;
          let subtotal := py_sum totals in
          Ok (<["id" := VStr (py_str (get cart "_id"))]>
              (<["items" := items]>
               {["subtotal" := num_value (py_round2 subtotal)]}))
      end
  end.

Definition status_ok : dict := {["status" := VStr "ok"]}.

(** The test of the merge loop and of the removal filter; the operands
    are fields of the validated payload, a [str] and an [Optional[str]]. *)
Definition same_line (i : dict) (pid : string) (var : option string) : bool :=
  eq_str (get i "product_id") pid && eq_opt_str (get i "variant") var.

(** The [for i in items] loop of [add_to_cart], with its [break]: the
    items after the pass and the flag [merged]. *)
Fixpoint merge_loop (items : list value) (it : CartItem)
  : res (list value * bool) :=
  match items with
  | [] => Ok ([], false)
  | i :: rest =>
      d ←! as_dict i;
      if same_line d (product_id it) (variant it) then
        a ←! as_num (get_default d "quantity" (VInt 1));
        let q := min10 (num_add a (NInt (quantity it))) in
        Ok (VDict (<["quantity" := num_value q]> d) :: rest, true)
      else
        r ←! merge_loop rest it;
        Ok (i :: r.1, r.2)
  end.

(** [POST /api/cart/add].  [new_id] is the identifier the store hands
    out if the call creates the cart document. *)
Definition add_to_cart (db : option database) (new_id : oid)
    (payload : CartUpsert) : res (dict * database) :=
  match db with
  | None => Raise database_unavailable
  | Some st =>
      let cart :=
        find_one (collection st "cart")
                 [("session_id", VStr (session_id payload))] in
      let payload_item := item payload in
      let item := model_dump payload_item in
      match cart with
      | None =>
          Ok (status_ok,
              create_document "cart"
                (<["session_id" := VStr (session_id payload)]>
                   {["items" := VList [VDict item]]})
                new_id st)
      | Some cart =>
          items ←! as_list (get_default cart "items" (VList []));
          r ←! merge_loop items payload_item;
          let items := if r.2 then r.1 else r.1 ++ [VDict item] in
          id ←! getitem cart "_id";
          Ok (status_ok,
              update_one "cart" [("_id", id)] "items" (VList items) st)
      end
  end.

(** The list comprehension of [remove_from_cart]. *)
Fixpoint remove_lines (lines : list value) (pid : string) (var : option string)
  : res (list value) :=
  match lines with
  | [] => Ok []
  | i :: rest =>
      d ←! as_dict i;
      kept ←! remove_lines rest pid var;
      Ok (if same_line d pid var then kept else i :: kept)
  end.

(** [POST /api/cart/remove]. *)
Definition remove_from_cart (db : option database) (payload : CartRemove)
  : res (dict * database) :=
  match db with
  | None => Raise database_unavailable
  | Some st =>
      let cart :=
        find_one (collection st "cart")
                 [("session_id", VStr (remove_session_id payload))] in
      match truthy cart with
      | None => Ok (status_ok, st)
      | Some cart =>
          lines ←! py_iter (get_default cart "items" (VList []));
          items ←! remove_lines lines (remove_product_id payload)
                                 (remove_variant payload);
          id ←! getitem cart "_id";
          Ok (status_ok,
              update_one "cart" [("_id", id)] "items" (VList items) st)
      end
  end.

End Routes.

(** ** A concrete runtime, to run the routes on examples

    Exact decimal arithmetic stands in for [float] (rounding to two
    places is to the nearest hundredth, ties to the even one), and an
    identifier is its 24-digit hexadecimal string. *)

Definition Q_round2 (q : Q) : Q :=
  let n := Qnum (Qmult q (inject_Z 100)) in
  let d := Z.pos (Qden (Qmult q (inject_Z 100))) in
  let lo := n / d in
  let r := n mod d in
  let k := if 2 * r <? d then lo
           else if d <? 2 * r then lo + 1
           else if Z.even lo then lo else lo + 1 in
  Qred (k # 100).

Definition exact_float : PyFloat := {|
  float := Q;
  float_of_Z := inject_Z;
  fadd a b := Qred (Qplus a b);
  fmul a b := Qred (Qmult a b);
  fltb a b := match Qcompare a b with Lt => true | _ => false end;
  round2 := Q_round2;
|}.

Definition is_hex (c : ascii) : bool :=
  let n := N_of_ascii c in
  ((48 <=? n) && (n <=? 57) || (65 <=? n) && (n <=? 70)
   || (97 <=? n) && (n <=? 102))%N.

Definition hex_ObjectId (s : string) : option string :=
  if (String.length s =? 24)%nat && forallb is_hex (list_ascii_of_string s)
  then Some s else None.

Definition hex_bson : Bson := {|
  oid := string;
  ObjectId := hex_ObjectId;
|}.

(** [str] on the values the examples pass to it. *)
Definition example_str : @PyStr exact_float hex_bson := {|
  py_str := λ v : @value exact_float hex_bson,
    match v return string with
    | VStr s => s
    | VOid o => o
    | VBool true => "True"
    | VBool false => "False"
    | _ => "None"
    end;
|}.

(** ** Statement vocabulary *)

Section Vocabulary.
Context `{PyStr}.

(** A projected document as it sits in a response. *)
Definition public (p : dict) : value := optional_dict (to_public_doc (Some p)).

(** The [featured] field of a document is the flag [b]. *)
Definition featured_is (b : bool) (p : dict) : bool :=
  match p !! "featured" with
  | Some (VBool b') => bool_decide (b' = b)
  | _ => false
  end.

Definition products_of (db : option database) : list dict :=
  match db with
  | Some st => collection st "product"
  | None => []
  end.

(** The identifier the store gave a document. *)
Definition doc_oid (d : dict) : option oid :=
  match d !! "_id" with
  | Some (VOid o) => Some o
  | _ => None
  end.

(** What the store guarantees of a collection: every document carries
    an identifier and no two documents carry the same one. *)
Definition identified (c : list dict) : Prop :=
  Forall (λ d, is_Some (doc_oid d)) c ∧ NoDup (doc_oid <$> c).

(** An identifier the store may assign to a new document. *)
Definition fresh (new_id : oid) (c : list dict) : Prop :=
  Some new_id ∉ doc_oid <$> c.

Definition session_query (s : string) : query := [("session_id", VStr s)].

(** The cart document of a session. *)
Definition cart_of (st : database) (s : string) : option dict :=
  find_one (collection st "cart") (session_query s).

(** The line items of a cart document, when they are dictionaries. *)
Definition cart_lines (cart : dict) (lines : list dict) : Prop :=
  get_default cart "items" (VList []) = VList (VDict <$> lines).

(** The line items of a session: those of its cart document, none when
    the session has no cart. *)
Definition session_lines (st : database) (s : string) (lines : list dict)
  : Prop :=
  match cart_of st s with
  | Some cart => cart_lines cart lines
  | None => lines = []
  end.

(** The merge key of a stored line and of a payload. *)
Definition line_key (d : dict) : value * value :=
  (get d "product_id", get d "variant").

Definition payload_key (pid : string) (var : option string) : value * value :=
  (VStr pid, optional_str var).

Definition valid_quantity (d : dict) : Prop :=
  ∃ q, d !! "quantity" = Some (VInt q) ∧ 1 ≤ q ≤ 10.

(** The two invariants of the data model, on one cart document. *)
Definition cart_invariant (cart : dict) : Prop :=
  ∃ lines, cart_lines cart lines ∧
           Forall valid_quantity lines ∧
           NoDup (line_key <$> lines).

(** Every stored cart document has its identifier and satisfies the
    invariants. *)
Definition carts_invariant (st : database) : Prop :=
  Forall (λ c, is_Some (c !! "_id") ∧ cart_invariant c) (collection st "cart").

(** Requests to the two writing routes, served one after the other. *)
Inductive request : Type :=
  | AddItem (new_id : oid) (payload : CartUpsert)
  | RemoveItem (payload : CartRemove).

Definition valid_request (r : request) : Prop :=
  match r with
  | AddItem _ payload => valid_CartItem (item payload)
  | RemoveItem payload => valid_CartRemove payload
  end.

Definition serve (st : database) (r : request) : res database :=
  match r with
  | AddItem new_id payload =>
      x ←! add_to_cart (Some st) new_id payload; Ok x.2
  | RemoveItem payload =>
      x ←! remove_from_cart (Some st) payload; Ok x.2
  end.

Fixpoint serve_all (st : database) (rs : list request) : res database :=
  match rs with
  | [] => Ok st
  | r :: rs' => st' ←! serve st r; serve_all st' rs'
  end.

(** The number a line holds in a field, and [dflt] when the line does
    not have the field; nothing when the field holds something else. *)
Definition field_num (d : dict) (k : string) (dflt : Z) : option num :=
  match d !! k with
  | None => Some (NInt dflt)
  | Some (VBool b) => Some (NInt (Z.b2z b))
  | Some (VInt n) => Some (NInt n)
  | Some (VFloat x) => Some (NFloat x)
  | Some _ => None
  end.

(** A line whose [price] and [quantity] are numbers where present. *)
Definition numeric_line (d : dict) : Prop :=
  is_Some (field_num d "price" 0) ∧ is_Some (field_num d "quantity" 1).

(** The price and the quantity a line enters the subtotal with. *)
Definition line_operands (d : dict) : num * num :=
  (default (NInt 0) (field_num d "price" 0),
   default (NInt 1) (field_num d "quantity" 1)).

(** [round(sum(price_i * quantity_i), 2)] over (price, quantity) pairs. *)
Definition subtotal_of (pqs : list (num * num)) : num :=
  py_round2 (py_sum ((λ pq, num_mul pq.1 pq.2) <$> pqs)).

End Vocabulary.

(** ** Example data *)

Section ExampleData.
#[local] Existing Instances exact_float hex_bson example_str.

Definition coat_id : string := "65a1f0c2b3d4e5f601234567".
Definition shirt_id : string := "65a1f0c2b3d4e5f601234568".
Definition cart_id : string := "65a1f0c2b3d4e5f6012345aa".
Definition other_id : string := "65a1f0c2b3d4e5f6012345ab".

(** The same, as the identifiers [ObjectId] makes of them. *)
Definition coat_oid : @oid hex_bson := coat_id.
Definition shirt_oid : @oid hex_bson := shirt_id.
Definition cart_oid : @oid hex_bson := cart_id.
Definition other_oid : @oid hex_bson := other_id.

(** The items of the scenario of the testable properties: A, then B with
    the same key, another price and quantity 9. *)
Definition item_A : CartItem := {|
  product_id := coat_id; title := "Overcoat"; price := inject_Z 100;
  image := None; quantity := 1; variant := None |}.

Definition item_B : CartItem := {|
  product_id := coat_id; title := "Overcoat, relabelled";
  price := inject_Z 999; image := None; quantity := 9; variant := None |}.

Definition item_C : CartItem := {|
  product_id := shirt_id; title := "Shirt"; price := inject_Z 420;
  image := None; quantity := 2; variant := Some "M" |}.

Definition add_A : CartUpsert := {| session_id := "s1"; item := item_A |}.
Definition add_B : CartUpsert := {| session_id := "s1"; item := item_B |}.
Definition add_C : CartUpsert := {| session_id := "s1"; item := item_C |}.

Definition remove_coat : CartRemove := {|
  remove_session_id := "s1"; remove_product_id := coat_id;
  remove_variant := None |}.

Definition empty_db : database := ∅.

(** The cart document of session [s1] once A was added. *)
Definition cart_A : dict :=
  <["_id" := VOid cart_oid]>
    (<["session_id" := VStr "s1"]>
       {["items" := VList [VDict (model_dump item_A)]]}).

Definition db_A : database := {["cart" := [cart_A]]}.

(** A cart whose only line has neither [price] nor [quantity]. *)
Definition bare_line : dict := {["product_id" := VStr coat_id]}.

Definition cart_bare : dict :=
  <["_id" := VOid cart_oid]>
    (<["session_id" := VStr "s1"]> {["items" := VList [VDict bare_line]]}).

Definition db_bare : database := {["cart" := [cart_bare]]}.

Definition coat_doc : dict :=
  <["_id" := VOid coat_oid]>
    (<["title" := VStr "Overcoat"]> {["featured" := VBool true]}).

Definition shirt_doc : dict :=
  <["_id" := VOid shirt_oid]>
    (<["title" := VStr "Shirt"]> {["featured" := VBool false]}).

Definition db_catalog : database := {["product" := [coat_doc; shirt_doc]]}.

End ExampleData.

(** ** Routes and hooks beside the cart and the catalog *)

Section Startup.
Context `{PyStr}.

(** [insert_one] and [insert_many]: each document is stored after the
    existing ones, under the identifier the driver generated for it. *)
Definition insert_many (name : string) (docs : list (oid * dict))
    (db : database) : database :=
  <[name := collection db name
            ++ ((λ x, <["_id" := VOid x.1]> x.2) <$> docs)]> db.

Definition insert_one (name : string) (doc : dict) (new_id : oid)
    (db : database) : database :=
  insert_many name [(new_id, doc)] db.

Definition count_documents (c : list dict) (q : query) : nat :=
  length (find c q).

(** [GET /api/collections/featured].  [hasattr] tells which attributes
    the handle [db] has (a pymongo database has every collection name). *)
Definition featured_collections (hasattr : string → bool)
    (db : option database) : dict :=
  match db with
  | None => {["collections" := VList []]}
  | Some st =>
      let cols :=
        if hasattr "collection"
        then find (collection st "collection") [("featured", VBool true)]
        else [] in
      let cols :=
        match cols with
        | [] =>
            if hasattr "collections"
            then find (collection st "collections") [("featured", VBool true)]
            else cols
        | _ :: _ => cols
        end in
      {["collections" :=
          VList ((λ c, optional_dict (to_public_doc (Some c))) <$> cols)]}
  end.

Definition size_variant (s : string) : value := VDict {["size" := VStr s]}.

(** The three documents of [demo] in [seed_demo]. *)
Definition demo_overcoat : dict :=
  <["title" := VStr "Provided Cashmere Overcoat"]>
  (<["description" :=
       VStr "Double-faced Italian cashmere with hand-finished edges."]>
  (<["price" := VFloat (float_of_Z 1680)]>
  (<["category" := VStr "Outerwear"]>
  (<["in_stock" := VBool true]>
  (<["featured" := VBool true]>
  (<["images" := VList
       [VStr "https://images.unsplash.com/photo-1548883354-cab52747f867?w=1200&auto=format&fit=crop&q=80";
        VStr "https://images.unsplash.com/photo-1548883354-3e64f90cbb7a?w=1200&auto=format&fit=crop&q=80"]]>
  (<["variants" := VList [size_variant "S"; size_variant "M"; size_variant "L"]]>
  {["tags" := VList [VStr "cashmere"; VStr "editorial"]]}))))))).

Definition demo_shirt : dict :=
  <["title" := VStr "Provided Silk Blend Shirt"]>
  (<["description" := VStr "Matte silk blend with mother-of-pearl buttons."]>
  (<["price" := VFloat (float_of_Z 420)]>
  (<["category" := VStr "Shirts"]>
  (<["in_stock" := VBool true]>
  (<["featured" := VBool true]>
  (<["images" := VList
       [VStr "https://images.unsplash.com/photo-1516826957135-700dedea698c?w=1200&auto=format&fit=crop&q=80"]]>
  (<["variants" := VList [size_variant "XS"; size_variant "S";
                          size_variant "M"; size_variant "L"]]>
  {["tags" := VList [VStr "silk"]]}))))))).

Definition demo_denim : dict :=
  <["title" := VStr "Provided Japanese Denim"]>
  (<["description" :=
       VStr "Selvedge denim, rinse washed for a deep navy tone."]>
  (<["price" := VFloat (float_of_Z 360)]>
  (<["category" := VStr "Denim"]>
  (<["in_stock" := VBool true]>
  (<["featured" := VBool false]>
  (<["images" := VList
       [VStr "https://images.unsplash.com/photo-1512436991641-6745cdb1723f?w=1200&auto=format&fit=crop&q=80"]]>
  (<["variants" := VList [size_variant "28"; size_variant "30";
                          size_variant "32"; size_variant "34"]]>
  {["tags" := VList [VStr "denim"]]}))))))).

(** The first guarded block of [seed_demo]; [ids] are the identifiers
    the driver generates for the three documents. *)
Definition seed_products (ids : oid * oid * oid) (st : database) : database :=
  if (count_documents (collection st "product") [] =? 0)%nat
  then insert_many "product"
         [(ids.1.1, demo_overcoat); (ids.1.2, demo_shirt); (ids.2, demo_denim)]
         st
  else st.

(** [[str(p["_id"]) for p in db.product.find({"featured": True})]]. *)
Definition featured_product_ids (st : database) : res (list value) :=
  mapM (λ p, v ←! getitem p "_id"; Ok (VStr (py_str v)))
       (find (collection st "product") [("featured", VBool true)]).

Definition aw_collection (prod_ids : list value) : dict :=
  <["name" := VStr "Autumn/Winter"]>
  (<["slug" := VStr "aw-collection"]>
  (<["description" := VStr "Quiet layers. Cinematic textures."]>
  (<["hero_image" :=
       VStr "https://images.unsplash.com/photo-1503342217505-b0a15cf70489?w=1600&auto=format&fit=crop&q=80"]>
  (<["product_ids" := VList prod_ids]>
  {["featured" := VBool true]})))).

(** The second guarded block of [seed_demo]. *)
Definition seed_collection (new_id : oid) (st : database) : res database :=
  if (count_documents (collection st "collections")
        [("slug", VStr "aw-collection")] =? 0)%nat
  then
    prod_ids ←! featured_product_ids st;
    Ok (insert_one "collections" (aw_collection prod_ids) new_id st)
  else Ok st.

(** [seed_demo], the startup hook: the database it leaves.  What the
    first block wrote stays when the second raises; [except Exception:
    pass] ends the hook in either case. *)
Definition seed_demo (db : option database) (ids : oid * oid * oid)
    (new_id : oid) : option database :=
  match db with
  | None => None
  | Some st =>
      let st1 := seed_products ids st in
      match seed_collection new_id st1 with
      | Ok st2 => Some st2
      | Raise _ => Some st1
      end
  end.

(** [add_to_cart] served [n] times with the same payload; [ids] gives
    the identifier the store would assign at each call. *)
Fixpoint add_repeatedly (st : database) (ids : list oid) (payload : CartUpsert)
  : res database :=
  match ids with
  | [] => Ok st
  | new_id :: ids' =>
      x ←! add_to_cart (Some st) new_id payload;
      add_repeatedly x.2 ids' payload
  end.

(** The session a request is about. *)
Definition request_session (r : request) : string :=
  match r with
  | AddItem _ payload => session_id payload
  | RemoveItem payload => remove_session_id payload
  end.

End Startup.

(** ** More example data *)

Section MoreExampleData.
#[local] Existing Instances exact_float hex_bson example_str.

(** [db_A] once B was merged into the line of A. *)
Definition db_AB : database :=
  {["cart" :=
      [<["items" :=
           VList [VDict (<["quantity" := VInt 10]> (model_dump item_A))]]>
         cart_A]]}.

(** A cart whose lines hold integers. *)
Definition line_int (p q : Z) : dict :=
  <["product_id" := VStr coat_id]>
    (<["price" := VInt p]> {["quantity" := VInt q]}).

Definition cart_int : dict :=
  <["_id" := VOid cart_oid]>
    (<["session_id" := VStr "s1"]>
       {["items" := VList [VDict (line_int 7 3); VDict (line_int 5 2)]]}).

Definition db_int : database := {["cart" := [cart_int]]}.






Definition demo_ids : @oid hex_bson * @oid hex_bson * @oid hex_bson :=
  (coat_oid, shirt_oid, other_oid).

(** The empty database after the startup hook. *)
Definition db_seeded : database :=
  insert_one "collections"
    (aw_collection [VStr coat_id; VStr shirt_id]) cart_oid
    (insert_many "product"
       [(coat_oid, demo_overcoat); (shirt_oid, demo_shirt);
        (other_oid, demo_denim)] empty_db).

Definition add_A_other_session : CartUpsert :=
  {| session_id := "s2"; item := item_A |}.

End MoreExampleData.

(** * Properties *)

Section Properties.
Context `{PyStr}.

(** ** Truthiness and the store *)

Lemma truthy_Some_inv (o : option dict) (m : dict) :
  truthy o = Some m → o = Some m ∧ m ≠ ∅.
Proof.
  destruct o as [d|]; simpl; [|done].
  case_bool_decide as Hsz; [done|].
  intros [= <-]. split; [done|].
  intros ->. by rewrite map_size_empty in Hsz.
Qed.

Lemma truthy_None_inv (o : option dict) :
  truthy o = None → o = None ∨ o = Some ∅.
Proof.
  destruct o as [d|]; simpl; [|by left].
  case_bool_decide as Hsz; [|done].
  intros _. right. f_equal. by apply map_size_empty_iff.
Qed.

Lemma truthy_lookup (d : dict) (k : string) (v : value) :
  d !! k = Some v → truthy (Some d) = Some d.
Proof.
  intros Hk. simpl. case_bool_decide as Hsz; [|done].
  apply map_size_empty_iff in Hsz. by rewrite Hsz, lookup_empty in Hk.
Qed.

Lemma matches_single (k : string) (v : value) (d : dict) :
  matches [(k, v)] d = true ↔ ∃ w, d !! k = Some w ∧ field_is w v = true.
Proof.
  unfold matches. simpl. rewrite andb_true_r.
  destruct (d !! k) as [w|]; split.
  - intros Hw. by exists w.
  - by intros (w' & [= <-] & Hw).
  - done.
  - by intros (w' & [=] & _).
Qed.

Lemma field_is_VBool (w : value) (b : bool) :
  field_is w (VBool b) = true ↔ w = VBool b.
Proof.
  destruct w; simpl; try (split; [done|by intros [=]]).
  rewrite bool_decide_eq_true. split; [by intros ->|by intros [= ->]].
Qed.

Lemma field_is_VStr (w : value) (s : string) :
  field_is w (VStr s) = true ↔ w = VStr s.
Proof.
  destruct w; simpl; try (split; [done|by intros [=]]).
  rewrite bool_decide_eq_true. split; [by intros ->|by intros [= ->]].
Qed.

Lemma field_is_VOid (w : value) (o : oid) :
  field_is w (VOid o) = true ↔ w = VOid o.
Proof.
  destruct w; simpl; try (split; [done|by intros [=]]).
  rewrite bool_decide_eq_true. split; [by intros ->|by intros [= ->]].
Qed.

Lemma featured_is_spec (b : bool) (p : dict) :
  featured_is b p = true ↔ p !! "featured" = Some (VBool b).
Proof.
  unfold featured_is.
  destruct (p !! "featured") as [[]|]; try (split; [done|by intros [=]]).
  rewrite bool_decide_eq_true. split; [by intros ->|by intros [= ->]].
Qed.

Lemma matches_featured (b : bool) (p : dict) :
  matches [("featured", VBool b)] p = featured_is b p.
Proof.
  apply eq_true_iff_eq.
  rewrite matches_single, featured_is_spec. split.
  - intros (w & Hw & Hf). apply field_is_VBool in Hf. by subst.
  - intros Hp. eexists. split; [done|]. by apply field_is_VBool.
Qed.

Lemma find_one_Some (c : list dict) (q : query) (d : dict) :
  find_one c q = Some d ↔
  ∃ l1 l2, c = l1 ++ d :: l2 ∧ Forall (λ x, matches q x = false) l1
           ∧ matches q d = true.
Proof.
  unfold find_one, find. split.
  - induction c as [|x c IH]; [done|].
    rewrite filter_cons. destruct (decide (matches q x)) as [Hx|Hx].
    + simpl. intros [= ->]. exists [], c. split_and!; [done|constructor|].
      by apply Is_true_true.
    + intros (l1 & l2 & -> & Hl1 & Hd)%IH. exists (x :: l1), l2.
      split_and!; [done| |done]. constructor; [|done].
      by apply Is_true_false_1.
  - intros (l1 & l2 & -> & Hl1 & Hd).
    induction Hl1 as [|x l1 Hx _ IH]; simpl.
    + rewrite filter_cons_True; [done|]. by apply Is_true_true.
    + rewrite filter_cons_False; [done|]. rewrite Hx. by intros [].
Qed.

Lemma find_one_None (c : list dict) (q : query) :
  find_one c q = None ↔ Forall (λ x, matches q x = false) c.
Proof.
  unfold find_one, find. induction c as [|x c IH]; [by split|].
  rewrite filter_cons. destruct (decide (matches q x)) as [Hx|Hx]; simpl.
  - split; [done|]. intros [Hx' _]%Forall_cons_1.
    rewrite Hx' in Hx. by destruct Hx.
  - rewrite IH. apply Is_true_false_1 in Hx. split.
    + intros Hc. by constructor.
    + by intros [_ Hc]%Forall_cons_1.
Qed.

(** ** Document Projector *)

Lemma to_public_doc_with_id (d : dict) (v : value) :
  d !! "_id" = Some v →
  to_public_doc (Some d) = Some (<["id" := VStr (py_str v)]> (delete "_id" d)).
Proof.
  intros Hid. unfold to_public_doc.
  rewrite (truthy_lookup _ _ _ Hid). by rewrite Hid.
Qed.

Lemma to_public_doc_without_id (d : dict) :
  d !! "_id" = None → to_public_doc (Some d) = Some d.
Proof.
  intros Hid. unfold to_public_doc.
  destruct (truthy (Some d)) as [m|] eqn:Ht; [|done].
  apply truthy_Some_inv in Ht as [[= <-] _]. by rewrite Hid.
Qed.

(** C9.  [to_public_doc] returns [None] and the empty document as they
    are; on a document with an [_id] field the result has no [_id], has
    [id] holding the string form of that identifier, and agrees with the
    input on every other field; a document without [_id] is returned with
    all its fields as they are. *)
Theorem to_public_doc_spec :
  to_public_doc None = None ∧
  to_public_doc (Some ∅) = Some ∅ ∧
  (∀ (d : dict) (v : value), d !! "_id" = Some v →
     ∃ d', to_public_doc (Some d) = Some d' ∧
           d' !! "_id" = None ∧
           d' !! "id" = Some (VStr (py_str v)) ∧
           ∀ k, k ≠ "_id" → k ≠ "id" → d' !! k = d !! k) ∧
  (∀ d : dict, d !! "_id" = None → to_public_doc (Some d) = Some d).
Proof.
  split_and!; [done|done| |apply to_public_doc_without_id].
  intros d v Hid. eexists. split; [by apply to_public_doc_with_id|].
  split_and!.
  - rewrite lookup_insert_ne; [|done]. apply lookup_delete_eq.
  - apply lookup_insert_eq.
  - intros k Hk1 Hk2. rewrite lookup_insert_ne; [|done].
    by rewrite lookup_delete_ne.
Qed.

Lemma public_field (p : dict) (k : string) :
  k ≠ "_id" → k ≠ "id" → ∃ d, public p = VDict d ∧ d !! k = p !! k.
Proof.
  intros Hk1 Hk2. unfold public.
  destruct (p !! "_id") as [v|] eqn:Hid.
  - rewrite (to_public_doc_with_id _ _ Hid). eexists. split; [done|].
    rewrite lookup_insert_ne; [|done]. by rewrite lookup_delete_ne.
  - rewrite (to_public_doc_without_id _ Hid). by eexists.
Qed.

(** ** Catalog Reader *)

Lemma find_featured (c : list dict) (b : bool) :
  find c [("featured", VBool b)] = filter (λ p, featured_is b p) c.
Proof.
  unfold find. apply list_filter_iff. intros p.
  by rewrite matches_featured.
Qed.

Lemma find_all (c : list dict) : find c [] = c.
Proof.
  unfold find. induction c as [|p c IH]; [done|].
  rewrite filter_cons_True; [|exact I]. by rewrite IH.
Qed.

(** C8.  [list_products] answers with the projections of at most 50
    stored product documents, taken in stored order: with [featured]
    given, the first 50 of those whose [featured] field is that flag (and
    the projection keeps the field); with [featured] omitted, the first
    50 of the whole collection. *)
Theorem list_products_spec (db : option database) (featured : option bool) :
  ∃ docs : list dict,
    list_products db featured = {["products" := VList (public <$> docs)]} ∧
    (length docs ≤ 50)%nat ∧
    docs `sublist_of` products_of db ∧
    (∀ b, featured = Some b →
       docs = take 50 (filter (λ p, featured_is b p) (products_of db)) ∧
       Forall (λ p, p !! "featured" = Some (VBool b) ∧
                    ∃ d, public p = VDict d ∧
                         d !! "featured" = Some (VBool b)) docs) ∧
    (featured = None → docs = take 50 (products_of db)).
Proof.
  destruct db as [st|]; simpl.
  - destruct featured as [b|].
    + exists (take 50 (filter (λ p, featured_is b p) (collection st "product"))).
      split_and!.
      * unfold limit. by rewrite find_featured.
      * rewrite length_take. lia.
      * etrans; [apply sublist_take|apply sublist_filter].
      * intros b' [= <-]. split; [done|].
        apply Forall_forall. intros p Hp.
        apply (subseteq_take 50), list_elem_of_filter in Hp as [Hp _].
        apply Is_true_true, featured_is_spec in Hp. split; [done|].
        rewrite <- Hp. by apply public_field.
      * done.
    + exists (take 50 (collection st "product")). split_and!.
      * unfold limit. by rewrite find_all.
      * rewrite length_take. lia.
      * apply sublist_take.
      * done.
      * done.
  - exists []. split_and!; [done|simpl; lia|done| |done].
    intros b _. by split; [|constructor].
Qed.

(** C1.  What [get_product] does with a well-formed identifier that no
    product document carries: the [HTTPException(404)] raised inside the
    [try] block is caught by [except Exception], and the route answers
    400 "Invalid id". *)
Theorem get_product_missing_is_400 (st : database) (product_id : string)
    (o : oid) :
  ObjectId product_id = Some o →
  find_one (collection st "product") [("_id", VOid o)] = None →
  get_product (Some st) product_id = Raise (HTTPException 400 "Invalid id").
Proof.
  intros Hoid Hnone. unfold get_product. by rewrite Hoid, Hnone.
Qed.

Lemma get_product_invalid_is_400 (st : database) (product_id : string) :
  ObjectId product_id = None →
  get_product (Some st) product_id = Raise (HTTPException 400 "Invalid id").
Proof. intros Hoid. unfold get_product. by rewrite Hoid. Qed.

Lemma get_product_found (st : database) (product_id : string) (o : oid)
    (prod : dict) :
  ObjectId product_id = Some o →
  find_one (collection st "product") [("_id", VOid o)] = Some prod →
  get_product (Some st) product_id = Ok (to_public_doc (Some prod)).
Proof.
  intros Hoid Hprod. unfold get_product. rewrite Hoid, Hprod.
  apply find_one_Some in Hprod as (_ & _ & _ & _ & Hm).
  apply matches_single in Hm as (w & Hw & _).
  by rewrite (truthy_lookup _ _ _ Hw).
Qed.

(** ** Writes to a collection *)

Lemma doc_oid_Some (d : dict) (o : oid) :
  doc_oid d = Some o ↔ d !! "_id" = Some (VOid o).
Proof.
  unfold doc_oid. destruct (d !! "_id") as [[]|]; split; try done.
  - by intros [= ->].
  - by intros [= ->].
Qed.

Lemma matches_id (d : dict) (o : oid) :
  matches [("_id", VOid o)] d = true ↔ doc_oid d = Some o.
Proof.
  rewrite matches_single, doc_oid_Some. split.
  - intros (w & Hw & Hf). apply field_is_VOid in Hf. by subst.
  - intros Hd. eexists. split; [done|]. by apply field_is_VOid.
Qed.

Lemma matches_session (d : dict) (s : string) :
  matches (session_query s) d = true ↔ d !! "session_id" = Some (VStr s).
Proof.
  unfold session_query. rewrite matches_single. split.
  - intros (w & Hw & Hf). apply field_is_VStr in Hf. by subst.
  - intros Hd. eexists. split; [done|]. by apply field_is_VStr.
Qed.

Lemma update_one_set_found (l1 l2 : list dict) (d : dict) (q : query)
    (k : string) (v : value) :
  Forall (λ x, matches q x = false) l1 → matches q d = true →
  update_one_set (l1 ++ d :: l2) q k v = l1 ++ <[k := v]> d :: l2.
Proof.
  intros Hl1 Hd. induction Hl1 as [|x l1 Hx _ IH]; simpl.
  - by rewrite Hd.
  - by rewrite Hx, IH.
Qed.

Lemma collection_update_one (st : database) (name : string) (q : query)
    (k : string) (v : value) :
  collection (update_one name q k v st) name
  = update_one_set (collection st name) q k v.
Proof.
  unfold collection, update_one. rewrite lookup_alter_eq.
  by destruct (st !! name).
Qed.

Lemma collection_create_document (st : database) (name : string)
    (data : dict) (new_id : oid) :
  collection (create_document name data new_id st) name
  = collection st name ++ [<["_id" := VOid new_id]> data].
Proof. unfold collection at 1, create_document. by rewrite lookup_insert_eq. Qed.

Lemma doc_oid_set_items (d : dict) (v : value) :
  doc_oid (<["items" := v]> d) = doc_oid d.
Proof. unfold doc_oid. by rewrite lookup_insert_ne. Qed.

Lemma doc_oid_update_one_set (c : list dict) (q : query) (v : value) :
  doc_oid <$> update_one_set c q "items" v = doc_oid <$> c.
Proof.
  induction c as [|d c IH]; [done|]. cbn [update_one_set].
  destruct (matches q d); rewrite !fmap_cons;
    [by rewrite doc_oid_set_items|by rewrite IH].
Qed.

Lemma identified_update_one_set (c : list dict) (q : query) (v : value) :
  identified c → identified (update_one_set c q "items" v).
Proof.
  intros [Hall Hnd]. split.
  - apply (Forall_fmap doc_oid is_Some).
    rewrite doc_oid_update_one_set. by apply Forall_fmap.
  - by rewrite doc_oid_update_one_set.
Qed.

Lemma identified_create (c : list dict) (data : dict) (new_id : oid) :
  identified c → fresh new_id c →
  identified (c ++ [<["_id" := VOid new_id]> data]).
Proof.
  intros [Hall Hnd] Hfresh.
  assert (doc_oid (<["_id" := VOid new_id]> data) = Some new_id) as Hid.
  { apply doc_oid_Some, lookup_insert_eq. }
  split.
  - apply Forall_app. split; [done|]. constructor; [|done]. by rewrite Hid.
  - rewrite fmap_app. simpl. rewrite Hid. apply NoDup_app.
    split_and!; [done| |apply NoDup_singleton].
    intros x Hx ->%list_elem_of_singleton. by apply Hfresh.
Qed.

(** With unique identifiers, the document a session query finds is the
    one the write by identifier changes, and it is still the one the
    query finds afterwards. *)
Lemma cart_of_update_one (st : database) (s : string) (cart : dict)
    (id v : value) :
  identified (collection st "cart") →
  cart_of st s = Some cart → cart !! "_id" = Some id →
  let st' := update_one "cart" [("_id", id)] "items" v st in
  cart_of st' s = Some (<["items" := v]> cart)
  ∧ identified (collection st' "cart").
Proof.
  intros Hident Hcart Hid st'. unfold cart_of, st' in *.
  rewrite collection_update_one. split; [|by apply identified_update_one_set].
  apply find_one_Some in Hcart as (l1 & l2 & Hc & Hl1 & Hm).
  rewrite Hc in *. destruct Hident as [Hall Hnd].
  apply Forall_app in Hall as [_ Hall].
  apply Forall_cons_1 in Hall as [[o Ho] _].
  assert (id = VOid o) as ->.
  { apply doc_oid_Some in Ho. congruence. }
  rewrite update_one_set_found.
  - apply find_one_Some. exists l1, l2. split_and!; [done|done|].
    apply matches_session. rewrite lookup_insert_ne; [|done].
    by apply matches_session.
  - apply Forall_forall. intros x Hx.
    destruct (matches [("_id", VOid o)] x) eqn:Hmx; [|done].
    apply matches_id in Hmx. rewrite fmap_app in Hnd.
    apply NoDup_app in Hnd as (_ & Hdisj & _).
    exfalso. apply (Hdisj (Some o)).
    + rewrite <- Hmx. by apply list_elem_of_fmap_2.
    + simpl. rewrite Ho. by left.
  - by apply matches_id.
Qed.

Lemma cart_of_create_document (st : database) (s : string) (data : dict)
    (new_id : oid) :
  cart_of st s = None → data !! "session_id" = Some (VStr s) →
  cart_of (create_document "cart" data new_id st) s
  = Some (<["_id" := VOid new_id]> data).
Proof.
  intros Hnone Hs. unfold cart_of in *.
  rewrite collection_create_document.
  apply find_one_None in Hnone.
  apply find_one_Some. exists (collection st "cart"), [].
  split_and!; [done|done|].
  apply matches_session. by rewrite lookup_insert_ne.
Qed.

Lemma cart_of_has_id (st : database) (s : string) (cart : dict) :
  identified (collection st "cart") → cart_of st s = Some cart →
  ∃ o, cart !! "_id" = Some (VOid o).
Proof.
  intros [Hall _] Hcart.
  apply find_one_Some in Hcart as (l1 & l2 & Hc & _ & _).
  rewrite Hc in Hall. apply Forall_app in Hall as [_ Hall].
  apply Forall_cons_1 in Hall as [[o Ho] _].
  exists o. by apply doc_oid_Some.
Qed.

(** ** The merge key *)

Lemma eq_str_spec (v : value) (s : string) : eq_str v s = true ↔ v = VStr s.
Proof.
  destruct v; simpl; try (split; [done|by intros [=]]).
  rewrite bool_decide_eq_true. split; [by intros ->|by intros [= ->]].
Qed.

Lemma eq_opt_str_spec (v : value) (o : option string) :
  eq_opt_str v o = true ↔ v = optional_str o.
Proof.
  destruct o as [s|]; simpl; [apply eq_str_spec|].
  by destruct v.
Qed.

Lemma same_line_spec (d : dict) (pid : string) (var : option string) :
  same_line d pid var = true ↔ line_key d = payload_key pid var.
Proof.
  unfold same_line, line_key, payload_key.
  rewrite andb_true_iff, eq_str_spec, eq_opt_str_spec. split.
  - by intros [-> ->].
  - by intros [= -> ->].
Qed.

Lemma line_key_set_quantity (d : dict) (v : value) :
  line_key (<["quantity" := v]> d) = line_key d.
Proof. unfold line_key, get. by rewrite !lookup_insert_ne. Qed.

Lemma line_key_model_dump (it : CartItem) :
  line_key (model_dump it) = payload_key (product_id it) (variant it).
Proof. done. Qed.

Lemma model_dump_quantity (it : CartItem) :
  model_dump it !! "quantity" = Some (VInt (quantity it)).
Proof. done. Qed.

(** ** The merge loop *)

Lemma merge_loop_append (lines : list dict) (it : CartItem) :
  Forall (λ d, same_line d (product_id it) (variant it) = false) lines →
  merge_loop (VDict <$> lines) it = Ok (VDict <$> lines, false).
Proof.
  induction 1 as [|d lines Hd _ IH]; [done|].
  rewrite fmap_cons. cbn [merge_loop as_dict res_bind].
  by rewrite Hd, IH.
Qed.

Lemma merge_loop_merge (l1 l2 : list dict) (d : dict) (it : CartItem)
    (a : num) :
  Forall (λ d, same_line d (product_id it) (variant it) = false) l1 →
  same_line d (product_id it) (variant it) = true →
  as_num (get_default d "quantity" (VInt 1)) = Ok a →
  merge_loop (VDict <$> (l1 ++ d :: l2)) it
  = Ok (VDict <$> (l1 ++ <["quantity" :=
                             num_value (min10 (num_add a (NInt (quantity it))))]> d
                      :: l2), true).
Proof.
  intros Hl1 Hd Ha. induction Hl1 as [|x l1 Hx _ IH].
  - rewrite !app_nil_l, !fmap_cons. cbn [merge_loop as_dict res_bind].
    by rewrite Hd, Ha.
  - rewrite <- !app_comm_cons, !fmap_cons.
    cbn [merge_loop as_dict res_bind]. by rewrite Hx, IH.
Qed.

(** Every list of lines either has no line with the key, or splits at
    the first one that has it. *)
Lemma first_same_line (lines : list dict) (pid : string) (var : option string) :
  Forall (λ d, same_line d pid var = false) lines ∨
  ∃ l1 d l2, lines = l1 ++ d :: l2 ∧
             Forall (λ d, same_line d pid var = false) l1 ∧
             same_line d pid var = true.
Proof.
  induction lines as [|x lines IH]; [by left|].
  destruct (same_line x pid var) eqn:Hx.
  - right. by exists [], x, lines.
  - destruct IH as [IH|(l1 & d & l2 & -> & Hl1 & Hd)].
    + left. by constructor.
    + right. exists (x :: l1), d, l2. split_and!; [done| |done].
      by constructor.
Qed.

(** ** [add_to_cart], case by case *)

Lemma add_to_cart_create (st : database) (new_id : oid) (payload : CartUpsert) :
  cart_of st (session_id payload) = None →
  ∃ st', add_to_cart (Some st) new_id payload = Ok (status_ok, st') ∧
         collection st' "cart"
         = collection st "cart" ++
           [<["_id" := VOid new_id]>
              (<["session_id" := VStr (session_id payload)]>
                 {["items" := VList [VDict (model_dump (item payload))]]})] ∧
         cart_of st' (session_id payload)
         = Some (<["_id" := VOid new_id]>
                   (<["session_id" := VStr (session_id payload)]>
                      {["items" := VList [VDict (model_dump (item payload))]]})).
Proof.
  intros Hnone. eexists. unfold add_to_cart.
  fold (session_query (session_id payload)).
  fold (cart_of st (session_id payload)). rewrite Hnone.
  split_and!; [done|apply collection_create_document|].
  apply cart_of_create_document; [done|]. apply lookup_insert_eq.
Qed.

Lemma add_to_cart_append_eq (st : database) (new_id : oid)
    (payload : CartUpsert) (cart : dict) (id : value) (lines : list dict) :
  cart_of st (session_id payload) = Some cart →
  cart !! "_id" = Some id →
  cart_lines cart lines →
  Forall (λ d, same_line d (product_id (item payload))
                 (variant (item payload)) = false) lines →
  add_to_cart (Some st) new_id payload
  = Ok (status_ok,
        update_one "cart" [("_id", id)] "items"
          (VList (VDict <$> (lines ++ [model_dump (item payload)]))) st).
Proof.
  intros Hcart Hid Hlines Hnone. unfold add_to_cart.
  fold (session_query (session_id payload)).
  fold (cart_of st (session_id payload)). rewrite Hcart.
  rewrite Hlines. cbn [as_list res_bind].
  rewrite (merge_loop_append _ _ Hnone). cbn [res_bind fst snd].
  unfold getitem. rewrite Hid. by rewrite fmap_app.
Qed.

Lemma add_to_cart_append (st : database) (new_id : oid) (payload : CartUpsert)
    (cart : dict) (lines : list dict) :
  identified (collection st "cart") →
  cart_of st (session_id payload) = Some cart →
  cart_lines cart lines →
  Forall (λ d, same_line d (product_id (item payload))
                 (variant (item payload)) = false) lines →
  ∃ st', add_to_cart (Some st) new_id payload = Ok (status_ok, st') ∧
         cart_of st' (session_id payload)
         = Some (<["items" :=
                     VList (VDict <$> (lines ++ [model_dump (item payload)]))]>
                   cart) ∧
         identified (collection st' "cart").
Proof.
  intros Hident Hcart Hlines Hnone.
  destruct (cart_of_has_id _ _ _ Hident Hcart) as [o Hid].
  eexists. split; [by eapply add_to_cart_append_eq|].
  by apply cart_of_update_one.
Qed.

Lemma add_to_cart_merge_eq (st : database) (new_id : oid)
    (payload : CartUpsert) (cart : dict) (id : value) (l1 l2 : list dict)
    (d : dict) (a : num) :
  cart_of st (session_id payload) = Some cart →
  cart !! "_id" = Some id →
  cart_lines cart (l1 ++ d :: l2) →
  Forall (λ d, same_line d (product_id (item payload))
                 (variant (item payload)) = false) l1 →
  same_line d (product_id (item payload)) (variant (item payload)) = true →
  as_num (get_default d "quantity" (VInt 1)) = Ok a →
  add_to_cart (Some st) new_id payload
  = Ok (status_ok,
        update_one "cart" [("_id", id)] "items"
          (VList (VDict <$>
             (l1 ++ <["quantity" :=
                        num_value (min10 (num_add a
                          (NInt (quantity (item payload)))))]> d
                 :: l2))) st).
Proof.
  intros Hcart Hid Hlines Hl1 Hd Ha. unfold add_to_cart.
  fold (session_query (session_id payload)).
  fold (cart_of st (session_id payload)). rewrite Hcart.
  rewrite Hlines. cbn [as_list res_bind].
  rewrite (merge_loop_merge _ _ _ _ _ Hl1 Hd Ha). cbn [res_bind fst snd].
  unfold getitem. by rewrite Hid.
Qed.

Lemma add_to_cart_merge (st : database) (new_id : oid) (payload : CartUpsert)
    (cart : dict) (l1 l2 : list dict) (d : dict) (a : num) :
  identified (collection st "cart") →
  cart_of st (session_id payload) = Some cart →
  cart_lines cart (l1 ++ d :: l2) →
  Forall (λ d, same_line d (product_id (item payload))
                 (variant (item payload)) = false) l1 →
  same_line d (product_id (item payload)) (variant (item payload)) = true →
  as_num (get_default d "quantity" (VInt 1)) = Ok a →
  ∃ st', add_to_cart (Some st) new_id payload = Ok (status_ok, st') ∧
         cart_of st' (session_id payload)
         = Some (<["items" :=
                     VList (VDict <$>
                       (l1 ++ <["quantity" :=
                                  num_value (min10 (num_add a
                                    (NInt (quantity (item payload)))))]> d
                           :: l2))]> cart) ∧
         identified (collection st' "cart").
Proof.
  intros Hident Hcart Hlines Hl1 Hd Ha.
  destruct (cart_of_has_id _ _ _ Hident Hcart) as [o Hid].
  eexists. split; [by eapply add_to_cart_merge_eq|].
  by apply cart_of_update_one.
Qed.

Lemma cart_lines_set_items (cart : dict) (lines : list dict) :
  cart_lines (<["items" := VList (VDict <$> lines)]> cart) lines.
Proof. unfold cart_lines, get_default. by rewrite lookup_insert_eq. Qed.

Lemma session_lines_cart (st : database) (s : string) (cart : dict)
    (lines : list dict) :
  cart_of st s = Some cart → cart_lines cart lines → session_lines st s lines.
Proof. intros Hcart Hlines. unfold session_lines. by rewrite Hcart. Qed.

Lemma not_same_line (lines : list dict) (pid : string) (var : option string) :
  Forall (λ d, line_key d ≠ payload_key pid var) lines →
  Forall (λ d, same_line d pid var = false) lines.
Proof.
  intros Hl. eapply Forall_impl; [done|]. intros d Hd. simpl.
  destruct (same_line d pid var) eqn:Hs; [|done].
  by apply same_line_spec in Hs.
Qed.

(** Adding under a key no line has: one more line, at the end. *)
Lemma add_to_cart_new_line (st : database) (new_id : oid)
    (payload : CartUpsert) (lines : list dict) :
  identified (collection st "cart") →
  session_lines st (session_id payload) lines →
  Forall (λ d, same_line d (product_id (item payload))
                 (variant (item payload)) = false) lines →
  fresh new_id (collection st "cart") →
  ∃ st', add_to_cart (Some st) new_id payload = Ok (status_ok, st') ∧
         session_lines st' (session_id payload)
                       (lines ++ [model_dump (item payload)]) ∧
         identified (collection st' "cart").
Proof.
  intros Hident Hlines Hnone Hfresh. unfold session_lines in Hlines.
  destruct (cart_of st (session_id payload)) as [cart|] eqn:Hcart.
  - destruct (add_to_cart_append _ new_id _ _ _ Hident Hcart Hlines Hnone)
      as (st' & Hadd & Hcart' & Hident').
    exists st'. split_and!; [done| |done].
    eapply session_lines_cart; [done|]. apply cart_lines_set_items.
  - subst lines.
    destruct (add_to_cart_create _ new_id _ Hcart) as (st' & Hadd & Hc & Hcart').
    exists st'. split_and!; [done| |].
    + eapply session_lines_cart; [done|]. unfold cart_lines, get_default.
      by rewrite !lookup_insert_ne, lookup_singleton_eq.
    + rewrite Hc. by apply identified_create.
Qed.

(** C7.  When no line of the session's cart has the key of the incoming
    item, [add_to_cart] answers [{"status": "ok"}] and the persisted
    items are the former lines, unchanged and in their order, followed
    by the incoming item: one line more.  Only the [items] field of the
    cart document is written. *)
Theorem add_to_cart_appends (st : database) (new_id : oid)
    (payload : CartUpsert) (lines : list dict) :
  identified (collection st "cart") →
  session_lines st (session_id payload) lines →
  Forall (λ d, line_key d ≠ payload_key (product_id (item payload))
                                        (variant (item payload))) lines →
  ∃ st' lines',
    add_to_cart (Some st) new_id payload = Ok (status_ok, st') ∧
    session_lines st' (session_id payload) lines' ∧
    lines' = lines ++ [model_dump (item payload)] ∧
    length lines' = S (length lines) ∧
    ∀ cart, cart_of st (session_id payload) = Some cart →
            cart_of st' (session_id payload)
            = Some (<["items" := VList (VDict <$> lines')]> cart).
Proof.
  intros Hident Hlines Hnone%not_same_line. unfold session_lines in Hlines.
  assert (length (lines ++ [model_dump (item payload)]) = S (length lines))
    as Hlen by (rewrite length_app; simpl; lia).
  destruct (cart_of st (session_id payload)) as [cart|] eqn:Hcart.
  - destruct (add_to_cart_append _ new_id _ _ _ Hident Hcart Hlines Hnone)
      as (st' & Hadd & Hcart' & _).
    exists st', (lines ++ [model_dump (item payload)]).
    split_and!; [done| |done|done|by intros ? [= <-]].
    eapply session_lines_cart; [done|]. apply cart_lines_set_items.
  - subst lines.
    destruct (add_to_cart_create _ new_id _ Hcart) as (st' & Hadd & _ & Hcart').
    exists st', [model_dump (item payload)].
    split_and!; [done| |done|done|done].
    eapply session_lines_cart; [done|]. unfold cart_lines, get_default.
    by rewrite !lookup_insert_ne, lookup_singleton_eq.
Qed.

(** C4.  When a line of the session's cart has the key of the incoming
    item, [add_to_cart] changes the [quantity] field of the first such
    line and nothing else: every other field of that line, [title],
    [price] and [image] among them, and every other line stay as they
    were. *)
Theorem add_to_cart_merges (st : database) (new_id : oid)
    (payload : CartUpsert) (cart : dict) (l1 l2 : list dict) (d : dict)
    (a : num) :
  identified (collection st "cart") →
  cart_of st (session_id payload) = Some cart →
  cart_lines cart (l1 ++ d :: l2) →
  Forall (λ d, line_key d ≠ payload_key (product_id (item payload))
                                        (variant (item payload))) l1 →
  line_key d = payload_key (product_id (item payload)) (variant (item payload)) →
  as_num (get_default d "quantity" (VInt 1)) = Ok a →
  ∃ st' d',
    add_to_cart (Some st) new_id payload = Ok (status_ok, st') ∧
    cart_of st' (session_id payload)
    = Some (<["items" := VList (VDict <$> (l1 ++ d' :: l2))]> cart) ∧
    d' !! "quantity"
    = Some (num_value (min10 (num_add a (NInt (quantity (item payload)))))) ∧
    d' !! "title" = d !! "title" ∧
    d' !! "price" = d !! "price" ∧
    d' !! "image" = d !! "image" ∧
    ∀ k, k ≠ "quantity" → d' !! k = d !! k.
Proof.
  intros Hident Hcart Hlines Hl1%not_same_line Hd%same_line_spec Ha.
  destruct (add_to_cart_merge _ new_id _ _ _ _ _ _ Hident Hcart Hlines Hl1 Hd Ha)
    as (st' & Hadd & Hcart' & _).
  exists st'. eexists. split_and!; [done|done|..].
  - apply lookup_insert_eq.
  - by rewrite lookup_insert_ne.
  - by rewrite lookup_insert_ne.
  - by rewrite lookup_insert_ne.
  - intros k Hk. by rewrite lookup_insert_ne.
Qed.

Lemma filter_none {A} (P : A → Prop) `{∀ x, Decision (P x)} (l : list A) :
  Forall (λ x, ¬ P x) l → filter P l = [].
Proof.
  induction 1 as [|x l Hx _ IH]; [done|]. by rewrite filter_cons_False.
Qed.

Lemma filter_all {A} (P : A → Prop) `{∀ x, Decision (P x)} (l : list A) :
  Forall P l → filter P l = l.
Proof.
  induction 1 as [|x l Hx _ IH]; [done|].
  rewrite filter_cons_True; [|done]. by rewrite IH.
Qed.

(** C2.  Two calls of [add_to_cart] for one session, with items of the
    same key and valid quantities [q1] then [q2], on a cart that has no
    line of that key (or that does not exist yet): both answer
    [{"status": "ok"}], and the cart then holds the former lines followed
    by exactly one line of that key, whose quantity is
    [min(10, q1 + q2)]. *)
Theorem add_to_cart_twice (st : database) (id1 id2 : oid)
    (p1 p2 : CartUpsert) (lines : list dict) :
  valid_CartItem (item p1) → valid_CartItem (item p2) →
  session_id p2 = session_id p1 →
  product_id (item p2) = product_id (item p1) →
  variant (item p2) = variant (item p1) →
  identified (collection st "cart") → fresh id1 (collection st "cart") →
  session_lines st (session_id p1) lines →
  Forall (λ d, line_key d ≠ payload_key (product_id (item p1))
                                        (variant (item p1))) lines →
  ∃ st1 st2 line,
    add_to_cart (Some st) id1 p1 = Ok (status_ok, st1) ∧
    add_to_cart (Some st1) id2 p2 = Ok (status_ok, st2) ∧
    session_lines st2 (session_id p1) (lines ++ [line]) ∧
    line_key line = payload_key (product_id (item p1)) (variant (item p1)) ∧
    line !! "quantity"
    = Some (VInt (Z.min 10 (quantity (item p1) + quantity (item p2)))) ∧
    filter (λ d, same_line d (product_id (item p1)) (variant (item p1)) = true)
           (lines ++ [line]) = [line].
Proof.
  intros _ _ Hs Hpid Hvar Hident Hfresh Hlines Hnone%not_same_line.
  destruct (add_to_cart_new_line _ id1 _ _ Hident Hlines Hnone Hfresh)
    as (st1 & Hadd1 & Hlines1 & Hident1).
  unfold session_lines in Hlines1.
  destruct (cart_of st1 (session_id p1)) as [cart1|] eqn:Hcart1;
    [|by destruct lines].
  rewrite <- Hs in Hcart1. rewrite <- Hpid, <- Hvar in Hnone.
  edestruct (add_to_cart_merge st1 id2 p2 cart1 lines [] (model_dump (item p1)))
    as (st2 & Hadd2 & Hcart2 & _); [done..| | |].
  { apply same_line_spec. by rewrite line_key_model_dump, Hpid, Hvar. }
  { unfold get_default. by rewrite model_dump_quantity. }
  rewrite Hs in Hcart2. rewrite Hpid, Hvar in Hnone.
  exists st1, st2. eexists. split_and!; [done|done| | | |].
  - eapply session_lines_cart; [done|]. apply cart_lines_set_items.
  - by rewrite line_key_set_quantity, line_key_model_dump.
  - by rewrite lookup_insert_eq.
  - rewrite filter_app, filter_cons_True, filter_nil.
    + rewrite filter_none; [done|].
      eapply Forall_impl; [done|]. simpl. by intros d ->.
    + apply same_line_spec.
      by rewrite line_key_set_quantity, line_key_model_dump.
Qed.

(** ** [remove_from_cart] *)

Lemma remove_lines_filter (lines : list dict) (pid : string)
    (var : option string) :
  remove_lines (VDict <$> lines) pid var
  = Ok (VDict <$> filter (λ d, same_line d pid var = false) lines).
Proof.
  induction lines as [|d lines IH]; [done|].
  rewrite fmap_cons. cbn [remove_lines as_dict res_bind]. rewrite IH.
  cbn [res_bind]. destruct (same_line d pid var) eqn:Hd.
  - rewrite filter_cons_False; [done|by rewrite Hd].
  - rewrite filter_cons_True; [done|by rewrite Hd].
Qed.

Lemma remove_from_cart_absent (st : database) (payload : CartRemove) :
  cart_of st (remove_session_id payload) = None →
  remove_from_cart (Some st) payload = Ok (status_ok, st).
Proof.
  intros Hnone. unfold remove_from_cart.
  fold (session_query (remove_session_id payload)).
  fold (cart_of st (remove_session_id payload)). by rewrite Hnone.
Qed.

Lemma remove_from_cart_present_eq (st : database) (payload : CartRemove)
    (cart : dict) (id : value) (lines : list dict) :
  cart_of st (remove_session_id payload) = Some cart →
  cart !! "_id" = Some id →
  cart_lines cart lines →
  remove_from_cart (Some st) payload
  = Ok (status_ok,
        update_one "cart" [("_id", id)] "items"
          (VList (VDict <$>
             filter (λ d, same_line d (remove_product_id payload)
                            (remove_variant payload) = false) lines)) st).
Proof.
  intros Hcart Hid Hlines. unfold remove_from_cart.
  fold (session_query (remove_session_id payload)).
  fold (cart_of st (remove_session_id payload)). rewrite Hcart.
  rewrite (truthy_lookup _ _ _ Hid), Hlines. cbn [py_iter res_bind].
  rewrite remove_lines_filter. cbn [res_bind].
  unfold getitem. by rewrite Hid.
Qed.

Lemma remove_from_cart_present (st : database) (payload : CartRemove)
    (cart : dict) (lines : list dict) :
  identified (collection st "cart") →
  cart_of st (remove_session_id payload) = Some cart →
  cart_lines cart lines →
  ∃ st', remove_from_cart (Some st) payload = Ok (status_ok, st') ∧
         cart_of st' (remove_session_id payload)
         = Some (<["items" :=
                     VList (VDict <$>
                       filter (λ d, same_line d (remove_product_id payload)
                                      (remove_variant payload) = false) lines)]>
                   cart) ∧
         identified (collection st' "cart").
Proof.
  intros Hident Hcart Hlines.
  destruct (cart_of_has_id _ _ _ Hident Hcart) as [o Hid].
  eexists. split; [by eapply remove_from_cart_present_eq|].
  by apply cart_of_update_one.
Qed.

(** C5.  [remove_from_cart] answers [{"status": "ok"}].  Without a cart
    for the session the database is left as it is.  Otherwise the
    persisted items are the former lines without those whose
    [product_id] and [variant] both equal the payload's (a payload
    without variant matching [None] only), the others unchanged and in
    their order; when exactly one line has the key the cart has one line
    less. *)
Theorem remove_from_cart_spec (st : database) (payload : CartRemove)
    (lines : list dict) :
  identified (collection st "cart") →
  session_lines st (remove_session_id payload) lines →
  let pid := remove_product_id payload in
  let var := remove_variant payload in
  let kept := filter (λ d, same_line d pid var = false) lines in
  ∃ st',
    remove_from_cart (Some st) payload = Ok (status_ok, st') ∧
    (cart_of st (remove_session_id payload) = None → st' = st) ∧
    (∀ cart, cart_of st (remove_session_id payload) = Some cart →
       cart_of st' (remove_session_id payload)
       = Some (<["items" := VList (VDict <$> kept)]> cart)) ∧
    session_lines st' (remove_session_id payload) kept ∧
    (∀ d, same_line d pid var = true ↔
          get d "product_id" = VStr pid ∧ get d "variant" = optional_str var) ∧
    kept `sublist_of` lines ∧
    (∀ l1 d l2, lines = l1 ++ d :: l2 →
       line_key d = payload_key pid var →
       Forall (λ x, line_key x ≠ payload_key pid var) (l1 ++ l2) →
       kept = l1 ++ l2 ∧ S (length kept) = length lines).
Proof.
  intros Hident Hlines pid var kept. unfold session_lines in Hlines.
  assert (∀ d, same_line d pid var = true ↔
               get d "product_id" = VStr pid ∧ get d "variant" = optional_str var)
    as Hkey.
  { intros d. unfold same_line.
    by rewrite andb_true_iff, eq_str_spec, eq_opt_str_spec. }
  assert (∀ l1 d l2, lines = l1 ++ d :: l2 →
       line_key d = payload_key pid var →
       Forall (λ x, line_key x ≠ payload_key pid var) (l1 ++ l2) →
       kept = l1 ++ l2 ∧ S (length kept) = length lines) as Honce.
  { intros l1 d l2 -> Hd%same_line_spec [Hl1 Hl2]%not_same_line%Forall_app.
    assert (kept = l1 ++ l2) as ->.
    { unfold kept. rewrite filter_app, filter_cons_False; [|by rewrite Hd].
      by rewrite !filter_all. }
    split; [done|]. rewrite !length_app. simpl. lia. }
  destruct (cart_of st (remove_session_id payload)) as [cart|] eqn:Hcart.
  - destruct (remove_from_cart_present _ _ _ _ Hident Hcart Hlines)
      as (st' & Hrem & Hcart' & _).
    exists st'. split_and!; [done|done|by intros ? [= <-]| |done| |done].
    + eapply session_lines_cart; [done|]. apply cart_lines_set_items.
    + apply sublist_filter.
  - exists st. split_and!;
      [by apply remove_from_cart_absent|done|done| |done| |done].
    + unfold session_lines. rewrite Hcart. by subst lines.
    + apply sublist_filter.
Qed.

(** ** The cart invariants *)

Lemma update_one_set_Forall (P : dict → Prop) (c : list dict) (q : query)
    (k : string) (v : value) :
  Forall P c → (∀ d, P d → P (<[k := v]> d)) →
  Forall P (update_one_set c q k v).
Proof.
  intros Hc HP. induction Hc as [|d c Hd Hc IH]; [done|].
  cbn [update_one_set]. destruct (matches q d); constructor; auto.
Qed.

Lemma cart_of_elem_of (st : database) (s : string) (cart : dict) :
  cart_of st s = Some cart → cart ∈ collection st "cart".
Proof.
  intros (l1 & l2 & -> & _)%find_one_Some.
  apply elem_of_app. right. by left.
Qed.

Lemma carts_invariant_update (st : database) (id : value) (lines : list dict) :
  carts_invariant st →
  Forall valid_quantity lines → NoDup (line_key <$> lines) →
  carts_invariant
    (update_one "cart" [("_id", id)] "items" (VList (VDict <$> lines)) st).
Proof.
  intros Hinv Hq Hnd. unfold carts_invariant.
  rewrite collection_update_one. apply update_one_set_Forall; [done|].
  intros d [Hid _]. split.
  - by rewrite lookup_insert_ne.
  - exists lines. split_and!; [apply cart_lines_set_items|done|done].
Qed.

Lemma valid_quantity_model_dump (it : CartItem) :
  valid_CartItem it → valid_quantity (model_dump it).
Proof. intros [_ Hq]. exists (quantity it). by rewrite model_dump_quantity. Qed.

Lemma add_to_cart_invariant (st : database) (new_id : oid)
    (payload : CartUpsert) :
  carts_invariant st → valid_CartItem (item payload) →
  ∃ st', add_to_cart (Some st) new_id payload = Ok (status_ok, st') ∧
         carts_invariant st'.
Proof.
  intros Hinv Hvalid.
  destruct (cart_of st (session_id payload)) as [cart|] eqn:Hcart.
  - pose proof (cart_of_elem_of _ _ _ Hcart) as Hin.
    unfold carts_invariant in Hinv.
    pose proof (proj1 (Forall_forall _ _) Hinv _ Hin)
      as [[id Hid] (lines & Hlines & Hq & Hnd)].
    destruct (first_same_line lines (product_id (item payload))
                (variant (item payload)))
      as [Hnone|(l1 & d & l2 & -> & Hl1 & Hd)].
    + eexists. split; [by eapply add_to_cart_append_eq|].
      apply carts_invariant_update; [done| |].
      * apply Forall_app. split; [done|].
        constructor; [by apply valid_quantity_model_dump|done].
      * rewrite fmap_app. apply NoDup_app.
        split_and!; [done| |apply NoDup_singleton].
        intros x (d & -> & Hd)%list_elem_of_fmap Hx%list_elem_of_singleton.
        rewrite line_key_model_dump in Hx. apply same_line_spec in Hx.
        pose proof (proj1 (Forall_forall _ _) Hnone _ Hd) as Hd'.
        simpl in Hd'. congruence.
    + apply Forall_app in Hq as [Hq1 Hq2].
      apply Forall_cons_1 in Hq2 as [(q & Hdq & Hq) Hq2].
      destruct Hvalid as [_ Hq'].
      eexists. split.
      { eapply add_to_cart_merge_eq; [done..|].
        unfold get_default. by rewrite Hdq. }
      apply carts_invariant_update; [done| |].
      * apply Forall_app. split; [done|]. constructor; [|done].
        eexists. split; [apply lookup_insert_eq|]. simpl. lia.
      * rewrite fmap_app, fmap_cons, line_key_set_quantity.
        by rewrite fmap_app, fmap_cons in Hnd.
  - destruct (add_to_cart_create _ new_id _ Hcart) as (st' & Hadd & Hc & _).
    exists st'. split; [done|]. unfold carts_invariant. rewrite Hc.
    apply Forall_app. split; [done|]. constructor; [|done]. split.
    + by rewrite lookup_insert_eq.
    + exists [model_dump (item payload)]. split_and!.
      * unfold cart_lines, get_default.
        by rewrite !lookup_insert_ne, lookup_singleton_eq.
      * constructor; [by apply valid_quantity_model_dump|done].
      * apply NoDup_singleton.
Qed.

Lemma remove_from_cart_invariant (st : database) (payload : CartRemove) :
  carts_invariant st →
  ∃ st', remove_from_cart (Some st) payload = Ok (status_ok, st') ∧
         carts_invariant st'.
Proof.
  intros Hinv.
  destruct (cart_of st (remove_session_id payload)) as [cart|] eqn:Hcart.
  - pose proof (cart_of_elem_of _ _ _ Hcart) as Hin.
    unfold carts_invariant in Hinv.
    pose proof (proj1 (Forall_forall _ _) Hinv _ Hin)
      as [[id Hid] (lines & Hlines & Hq & Hnd)].
    eexists. split; [by eapply remove_from_cart_present_eq|].
    apply carts_invariant_update; [done| |].
    + apply Forall_forall. intros d [_ Hd]%list_elem_of_filter.
      by apply (proj1 (Forall_forall _ _) Hq).
    + eapply sublist_NoDup; [done|]. apply fmap_sublist, sublist_filter.
  - exists st. split; [by apply remove_from_cart_absent|done].
Qed.

Lemma serve_all_invariant (rs : list request) (st : database) :
  carts_invariant st → Forall valid_request rs →
  ∃ st', serve_all st rs = Ok st' ∧ carts_invariant st'.
Proof.
  intros Hinv Hrs. revert st Hinv.
  induction Hrs as [|r rs Hr _ IH]; intros st Hinv; [by exists st|].
  cbn [serve_all].
  assert (∃ st1, serve st r = Ok st1 ∧ carts_invariant st1)
    as (st1 & -> & Hinv1).
  { destruct r as [new_id payload|payload]; cbn [serve valid_request] in *.
    - destruct (add_to_cart_invariant _ new_id _ Hinv Hr) as (st1 & -> & ?).
      by exists st1.
    - destruct (remove_from_cart_invariant _ payload Hinv) as (st1 & -> & ?).
      by exists st1. }
  cbn [res_bind]. by apply IH.
Qed.

(** C3.  Starting from a database without any cart and serving any
    sequence of [add_to_cart] and [remove_from_cart] requests with
    validated payloads, every request succeeds, and in the database
    reached every cart document holds a list of lines in which each
    quantity is an integer between 1 and 10 and no two lines have the
    same ([product_id], [variant]) key. *)
Theorem cart_invariant_reachable (st : database) (rs : list request) :
  collection st "cart" = [] → Forall valid_request rs →
  ∃ st', serve_all st rs = Ok st' ∧
         ∀ cart, cart ∈ collection st' "cart" →
           ∃ lines, cart_lines cart lines ∧
                    Forall (λ d, ∃ q, d !! "quantity" = Some (VInt q)
                                      ∧ 1 ≤ q ≤ 10) lines ∧
                    NoDup (line_key <$> lines).
Proof.
  intros Hempty Hrs.
  destruct (serve_all_invariant rs st) as (st' & Hrun & Hinv); [|done|].
  { unfold carts_invariant. by rewrite Hempty. }
  exists st'. split; [done|]. intros cart Hcart.
  by destruct (proj1 (Forall_forall _ _) Hinv _ Hcart) as [_ ?].
Qed.

(** ** [get_cart] *)

Lemma as_num_field_num (d : dict) (k : string) (dflt : Z) (a : num) :
  field_num d k dflt = Some a →
  as_num (get_default d k (VInt dflt)) = Ok a.
Proof.
  unfold field_num, get_default.
  destruct (d !! k) as [[]|]; simpl; by intros [= <-].
Qed.

Lemma field_num_present (d : dict) (k : string) (dflt : Z) (a : num) :
  d !! k = Some (num_value a) → field_num d k dflt = Some a.
Proof. unfold field_num. intros ->. by destruct a. Qed.

Lemma field_num_missing (d : dict) (k : string) (dflt : Z) :
  d !! k = None → field_num d k dflt = Some (NInt dflt).
Proof. unfold field_num. by intros ->. Qed.

Lemma line_total_numeric (d : dict) :
  numeric_line d →
  line_total (VDict d)
  = Ok (num_mul (line_operands d).1 (line_operands d).2).
Proof.
  intros [[p Hp] [q Hq]]. unfold line_total, line_operands.
  cbn [as_dict res_bind].
  rewrite (as_num_field_num _ _ _ _ Hp), (as_num_field_num _ _ _ _ Hq).
  by rewrite Hp, Hq.
Qed.

Lemma mapM_line_total (lines : list dict) :
  Forall numeric_line lines →
  mapM line_total (VDict <$> lines)
  = Ok ((λ pq, num_mul pq.1 pq.2) <$> (line_operands <$> lines)).
Proof.
  induction 1 as [|d lines Hd _ IH]; [done|].
  rewrite !fmap_cons. cbn [mapM].
  rewrite (line_total_numeric _ Hd). cbn [res_bind]. by rewrite IH.
Qed.

Lemma get_cart_absent (st : database) (s : string) :
  cart_of st s = None → get_cart (Some st) s = Ok empty_cart_view.
Proof.
  intros Hnone. unfold get_cart. fold (session_query s).
  fold (cart_of st s). by rewrite Hnone.
Qed.

Lemma get_cart_present (st : database) (s : string) (cart : dict)
    (lines : list dict) :
  cart_of st s = Some cart → cart_lines cart lines →
  Forall numeric_line lines →
  get_cart (Some st) s
  = Ok (<["id" := VStr (py_str (get cart "_id"))]>
        (<["items" := VList (VDict <$> lines)]>
         {["subtotal" := num_value (subtotal_of (line_operands <$> lines))]})).
Proof.
  intros Hcart Hlines Hnum. unfold get_cart. fold (session_query s).
  fold (cart_of st s). rewrite Hcart.
  apply find_one_Some in Hcart as (_ & _ & _ & _ & Hs).
  apply matches_session in Hs. rewrite (truthy_lookup _ _ _ Hs).
  unfold cart_lines in Hlines. cbv zeta. rewrite !Hlines.
  cbn [py_iter res_bind]. by rewrite (mapM_line_total _ Hnum).
Qed.

(** C6.  [get_cart] answers the empty view, with no items and subtotal
    [0.0], when the database is unavailable or holds no cart for the
    session; for a cart whose lines hold the prices and quantities
    [pqs] it answers the stored items and
    [round(sum(price_i * quantity_i), 2)]. *)
Theorem get_cart_subtotal :
  (∀ s, get_cart None s = Ok empty_cart_view) ∧
  (∀ st s, cart_of st s = None → get_cart (Some st) s = Ok empty_cart_view) ∧
  empty_cart_view !! "items" = Some (VList []) ∧
  empty_cart_view !! "subtotal" = Some (VFloat (float_of_Z 0)) ∧
  (∀ st s cart lines pqs,
     cart_of st s = Some cart → cart_lines cart lines →
     Forall2 (λ d pq, d !! "price" = Some (num_value pq.1) ∧
                      d !! "quantity" = Some (num_value pq.2)) lines pqs →
     ∃ view, get_cart (Some st) s = Ok view ∧
             view !! "items" = Some (VList (VDict <$> lines)) ∧
             view !! "subtotal"
             = Some (num_value (py_round2 (py_sum
                       ((λ pq, num_mul pq.1 pq.2) <$> pqs))))).
Proof.
  split_and!; [done|apply get_cart_absent|done|done|].
  intros st s cart lines pqs Hcart Hlines Hpq.
  assert (Forall numeric_line lines ∧ line_operands <$> lines = pqs)
    as [Hnum <-].
  { clear Hcart Hlines.
    induction Hpq as [|d [p q] lines pqs [Hp Hq] _ [IH1 IH2]]; [done|].
    simpl in Hp, Hq.
    pose proof (field_num_present _ _ 0 _ Hp) as Hp'.
    pose proof (field_num_present _ _ 1 _ Hq) as Hq'.
    split.
    - constructor; [|done]. split; by eexists.
    - rewrite fmap_cons, IH2. unfold line_operands. by rewrite Hp', Hq'. }
  eexists. split; [by apply get_cart_present|]. split.
  - rewrite lookup_insert_ne; [|done]. apply lookup_insert_eq.
  - by rewrite !lookup_insert_ne, lookup_singleton_eq.
Qed.

(** C10.  On a cart whose lines are dictionaries in which [price] and
    [quantity] are each a number or missing, [get_cart] returns: the
    subtotal is the rounded sum of price times quantity, a line without
    [price] entering with price [0] and a line without [quantity] with
    quantity [1]. *)
Theorem get_cart_incomplete_lines (st : database) (s : string) (cart : dict)
    (lines : list dict) :
  cart_of st s = Some cart → cart_lines cart lines →
  Forall (λ d, (d !! "price" = None ∨ ∃ p, d !! "price" = Some (num_value p)) ∧
               (d !! "quantity" = None
                ∨ ∃ q, d !! "quantity" = Some (num_value q))) lines →
  ∃ view,
    get_cart (Some st) s = Ok view ∧
    view !! "subtotal"
    = Some (num_value (subtotal_of (line_operands <$> lines))) ∧
    ∀ d, (d !! "price" = None → (line_operands d).1 = NInt 0) ∧
         (d !! "quantity" = None → (line_operands d).2 = NInt 1) ∧
         (∀ p, d !! "price" = Some (num_value p) → (line_operands d).1 = p) ∧
         (∀ q, d !! "quantity" = Some (num_value q) → (line_operands d).2 = q).
Proof.
  intros Hcart Hlines Hinc.
  assert (Forall numeric_line lines) as Hnum.
  { eapply Forall_impl; [done|]. simpl. intros d [Hp Hq]. split.
    - destruct Hp as [Hp|[p Hp]]; eexists;
        [by apply field_num_missing|by apply field_num_present].
    - destruct Hq as [Hq|[q Hq]]; eexists;
        [by apply field_num_missing|by apply field_num_present]. }
  eexists. split; [by apply get_cart_present|]. split.
  - by rewrite !lookup_insert_ne, lookup_singleton_eq.
  - intros d. unfold line_operands. simpl. split_and!.
    + intros Hp. by rewrite (field_num_missing _ _ _ Hp).
    + intros Hq. by rewrite (field_num_missing _ _ _ Hq).
    + intros p Hp. by rewrite (field_num_present _ _ _ _ Hp).
    + intros q Hq. by rewrite (field_num_present _ _ _ _ Hq).
Qed.

End Properties.

(** * The routes on the example data *)

Section Examples.
#[local] Existing Instances exact_float hex_bson example_str.

(** The scenario of the testable properties: add A, add B onto it,
    remove the line. *)
Example scenario_add_A :
  add_to_cart (Some empty_db) cart_oid add_A = Ok (status_ok, db_A).
Proof. reflexivity. Qed.

Example scenario_subtotal_A :
  ∃ view, get_cart (Some db_A) "s1" = Ok view ∧
          view !! "items" = Some (VList [VDict (model_dump item_A)]) ∧
          view !! "subtotal" = Some (VFloat (inject_Z 100)).
Proof. eexists. split_and!; reflexivity. Qed.

Example scenario_add_B :
  ∃ st line view,
    add_to_cart (Some db_A) other_oid add_B = Ok (status_ok, st) ∧
    session_lines st "s1" [line] ∧
    line !! "quantity" = Some (VInt 10) ∧
    line !! "price" = Some (VFloat (inject_Z 100)) ∧
    line !! "title" = Some (VStr "Overcoat") ∧
    get_cart (Some st) "s1" = Ok view ∧
    view !! "subtotal" = Some (VFloat (inject_Z 1000)).
Proof. do 3 eexists. split_and!; reflexivity. Qed.

Example scenario_remove :
  ∃ st view,
    remove_from_cart (Some db_A) remove_coat = Ok (status_ok, st) ∧
    session_lines st "s1" [] ∧
    get_cart (Some st) "s1" = Ok view ∧
    view !! "items" = Some (VList []) ∧
    view !! "subtotal" = Some (VInt 0).
Proof. do 2 eexists. split_and!; reflexivity. Qed.

Example list_products_featured :
  list_products (Some db_catalog) (Some true)
  = {["products" := VList [public coat_doc]]}.
Proof. reflexivity. Qed.

Example get_product_found_example :
  get_product (Some db_catalog) shirt_id = Ok (to_public_doc (Some shirt_doc)).
Proof. reflexivity. Qed.

Example get_product_no_database :
  get_product None "not an id" = Raise (HTTPException 404 "Not found").
Proof. reflexivity. Qed.

Example get_product_malformed :
  get_product (Some db_catalog) "not an id"
  = Raise (HTTPException 400 "Invalid id").
Proof. reflexivity. Qed.

End Examples.

(** * The theorems at the example data *)

Section Instances.
#[local] Existing Instances exact_float hex_bson example_str.

Lemma identified_empty_db : identified (collection empty_db "cart").
Proof. split; constructor. Qed.

Lemma identified_db_A : identified (collection db_A "cart").
Proof.
  split.
  - constructor; [by eexists|constructor].
  - apply NoDup_singleton.
Qed.

Lemma get_product_missing_is_400_witness :
  ObjectId coat_id = Some coat_oid ∧
  find_one (collection empty_db "product") [("_id", VOid coat_oid)] = None ∧
  get_product (Some empty_db) coat_id
  = Raise (HTTPException 400 "Invalid id").
Proof.
  split_and!; [reflexivity|reflexivity|].
  apply (get_product_missing_is_400 empty_db coat_id coat_oid);
    reflexivity.
Defined.

Lemma to_public_doc_spec_witness :
  coat_doc !! "_id" = Some (VOid coat_oid) ∧
  ∃ d', to_public_doc (Some coat_doc) = Some d' ∧
        d' !! "_id" = None ∧
        d' !! "id" = Some (VStr coat_id) ∧
        ∀ k, k ≠ "_id" → k ≠ "id" → d' !! k = coat_doc !! k.
Proof.
  split; [reflexivity|].
  exact (proj1 (proj2 (proj2 to_public_doc_spec)) coat_doc (VOid coat_oid)
           eq_refl).
Defined.

Lemma add_to_cart_twice_witness :
  ∃ st1 st2 line,
    add_to_cart (Some empty_db) cart_oid add_A = Ok (status_ok, st1) ∧
    add_to_cart (Some st1) other_oid add_B = Ok (status_ok, st2) ∧
    session_lines st2 "s1" ([] ++ [line]) ∧
    line_key line = payload_key coat_id None ∧
    line !! "quantity" = Some (VInt (Z.min 10 (1 + 9))) ∧
    filter (λ d, same_line d coat_id None = true) ([] ++ [line]) = [line].
Proof.
  apply (add_to_cart_twice empty_db cart_oid
           other_oid add_A add_B []).
  - split; [eexists; reflexivity|simpl; lia].
  - split; [eexists; reflexivity|simpl; lia].
  - reflexivity.
  - reflexivity.
  - reflexivity.
  - apply identified_empty_db.
  - apply not_elem_of_nil.
  - reflexivity.
  - constructor.
Defined.

Lemma cart_invariant_reachable_witness :
  ∃ st',
    serve_all empty_db [AddItem cart_oid add_A; AddItem other_oid add_B;
                        AddItem other_oid add_C; RemoveItem remove_coat]
    = Ok st' ∧
    ∀ cart, cart ∈ collection st' "cart" →
      ∃ lines, cart_lines cart lines ∧
               Forall (λ d, ∃ q, d !! "quantity" = Some (VInt q)
                                 ∧ 1 ≤ q ≤ 10) lines ∧
               NoDup (line_key <$> lines).
Proof.
  apply (cart_invariant_reachable empty_db); [reflexivity|].
  repeat constructor; try (eexists; reflexivity); simpl; lia.
Defined.

Lemma add_to_cart_merges_witness :
  ∃ st' d',
    add_to_cart (Some db_A) other_oid add_B = Ok (status_ok, st') ∧
    cart_of st' "s1"
    = Some (<["items" := VList (VDict <$> ([] ++ d' :: []))]> cart_A) ∧
    d' !! "quantity"
    = Some (num_value (min10 (num_add (NInt 1) (NInt 9)))) ∧
    d' !! "title" = model_dump item_A !! "title" ∧
    d' !! "price" = model_dump item_A !! "price" ∧
    d' !! "image" = model_dump item_A !! "image" ∧
    ∀ k, k ≠ "quantity" → d' !! k = model_dump item_A !! k.
Proof.
  apply (add_to_cart_merges db_A other_oid add_B cart_A [] []
           (model_dump item_A) (NInt 1)).
  - apply identified_db_A.
  - reflexivity.
  - reflexivity.
  - constructor.
  - reflexivity.
  - reflexivity.
Defined.

Lemma remove_from_cart_spec_witness :
  ∃ st',
    remove_from_cart (Some db_A) remove_coat = Ok (status_ok, st') ∧
    session_lines st' "s1" [] ∧
    cart_of st' "s1" = Some (<["items" := VList []]> cart_A).
Proof.
  destruct (remove_from_cart_spec db_A remove_coat [model_dump item_A])
    as (st' & Hrem & _ & Hcart & Hlines & _).
  - apply identified_db_A.
  - reflexivity.
  - exists st'. split_and!; [exact Hrem|exact Hlines|].
    apply (Hcart cart_A). reflexivity.
Defined.

Lemma get_cart_subtotal_witness :
  ∃ view, get_cart (Some db_A) "s1" = Ok view ∧
          view !! "items" = Some (VList [VDict (model_dump item_A)]) ∧
          view !! "subtotal" = Some (VFloat (inject_Z 100)).
Proof.
  apply (proj2 (proj2 (proj2 (proj2 get_cart_subtotal))) db_A "s1" cart_A
           [model_dump item_A] [(NFloat (float_of_Z 100), NInt 1)]).
  - reflexivity.
  - reflexivity.
  - repeat constructor.
Defined.

Lemma add_to_cart_appends_witness :
  ∃ st' lines',
    add_to_cart (Some db_A) other_oid add_C = Ok (status_ok, st') ∧
    session_lines st' "s1" lines' ∧
    lines' = [model_dump item_A] ++ [model_dump item_C] ∧
    length lines' = 2%nat ∧
    ∀ cart, cart_of db_A "s1" = Some cart →
            cart_of st' "s1"
            = Some (<["items" := VList (VDict <$> lines')]> cart).
Proof.
  apply (add_to_cart_appends db_A other_oid add_C
           [model_dump item_A]).
  - apply identified_db_A.
  - reflexivity.
  - constructor; [|constructor].
    rewrite line_key_model_dump. unfold payload_key. by intros [=].
Defined.

Lemma get_cart_incomplete_lines_witness :
  ∃ view,
    get_cart (Some db_bare) "s1" = Ok view ∧
    view !! "subtotal"
    = Some (num_value (subtotal_of (line_operands <$> [bare_line]))) ∧
    ∀ d, (d !! "price" = None → (line_operands d).1 = NInt 0) ∧
         (d !! "quantity" = None → (line_operands d).2 = NInt 1) ∧
         (∀ p, d !! "price" = Some (num_value p) → (line_operands d).1 = p) ∧
         (∀ q, d !! "quantity" = Some (num_value q) → (line_operands d).2 = q).
Proof.
  apply (get_cart_incomplete_lines db_bare "s1" cart_bare [bare_line]).
  - reflexivity.
  - reflexivity.
  - constructor; [|constructor]. split; by left.
Defined.

Example bare_line_subtotal :
  ∃ view, get_cart (Some db_bare) "s1" = Ok view ∧
          view !! "subtotal" = Some (VInt 0).
Proof. eexists. split; reflexivity. Qed.

End Instances.

(** * Further properties of the routes *)

Section FurtherProperties.
Context `{PyStr}.

(** ** The projector applied twice *)

(** X1.  Projecting a projected document changes nothing: after the
    first pass there is no [_id] left to rename. *)
Theorem to_public_doc_idempotent (doc : option dict) :
  to_public_doc (to_public_doc doc) = to_public_doc doc.
Proof.
  destruct doc as [d|]; [|done].
  destruct (d !! "_id") as [v|] eqn:Hid.
  - rewrite (to_public_doc_with_id _ _ Hid).
    apply to_public_doc_without_id.
    rewrite lookup_insert_ne; [|done]. apply lookup_delete_eq.
  - rewrite (to_public_doc_without_id _ Hid).
    by apply to_public_doc_without_id.
Qed.

(** ** What a write leaves alone *)

Lemma add_to_cart_Ok_inv (st st' : database) (new_id : oid)
    (payload : CartUpsert) (r : dict) :
  add_to_cart (Some st) new_id payload = Ok (r, st') →
  r = status_ok ∧
  ((cart_of st (session_id payload) = None ∧
    collection st' "cart"
    = collection st "cart" ++
      [<["_id" := VOid new_id]>
         (<["session_id" := VStr (session_id payload)]>
            {["items" := VList [VDict (model_dump (item payload))]]})] ∧
    ∀ name, name ≠ "cart" → st' !! name = st !! name)
   ∨ ∃ cart id items,
       cart_of st (session_id payload) = Some cart ∧
       cart !! "_id" = Some id ∧
       st' = update_one "cart" [("_id", id)] "items" (VList items) st).
Proof.
  unfold add_to_cart. fold (session_query (session_id payload)).
  fold (cart_of st (session_id payload)).
  destruct (cart_of st (session_id payload)) as [cart|] eqn:Hcart.
  - destruct (as_list _) as [items|]; [|done]. cbn [res_bind].
    destruct (merge_loop _ _) as [m|]; [|done]. cbn [res_bind].
    unfold getitem. destruct (cart !! "_id") as [id|] eqn:Hid; [|done].
    cbn [res_bind]. intros [= <- <-]. split; [done|]. right.
    by eexists cart, id, _.
  - intros [= <- <-]. split; [done|]. left.
    split_and!; [done|apply collection_create_document|].
    intros name Hne. unfold create_document. by rewrite lookup_insert_ne.
Qed.

Lemma remove_from_cart_Ok_inv (st st' : database) (payload : CartRemove)
    (r : dict) :
  remove_from_cart (Some st) payload = Ok (r, st') →
  r = status_ok ∧
  (st' = st
   ∨ ∃ cart id items,
       cart_of st (remove_session_id payload) = Some cart ∧
       cart !! "_id" = Some id ∧
       st' = update_one "cart" [("_id", id)] "items" (VList items) st).
Proof.
  unfold remove_from_cart. fold (session_query (remove_session_id payload)).
  fold (cart_of st (remove_session_id payload)).
  destruct (truthy (cart_of st (remove_session_id payload))) as [cart|] eqn:Ht.
  - apply truthy_Some_inv in Ht as [Hcart _].
    destruct (py_iter _) as [lines|]; [|done]. cbn [res_bind].
    destruct (remove_lines _ _ _) as [items|]; [|done]. cbn [res_bind].
    unfold getitem. destruct (cart !! "_id") as [id|] eqn:Hid; [|done].
    cbn [res_bind]. intros [= <- <-]. split; [done|]. right.
    by eexists cart, id, _.
  - intros [= <- <-]. split; [done|]. by left.
Qed.

Lemma matches_session_set_items (s : string) (d : dict) (v : value) :
  matches (session_query s) (<["items" := v]> d) = matches (session_query s) d.
Proof.
  apply eq_true_iff_eq. rewrite !matches_session.
  by rewrite lookup_insert_ne.
Qed.

Lemma find_one_app (l1 l2 : list dict) (q : query) :
  Forall (λ x, matches q x = false) l1 →
  find_one (l1 ++ l2) q = find_one l2 q.
Proof.
  intros Hl1. unfold find_one, find. rewrite filter_app, filter_none; [done|].
  eapply Forall_impl; [done|]. simpl. intros x ->. by intros [].
Qed.

Lemma find_one_app_r (l1 l2 : list dict) (q : query) :
  Forall (λ x, matches q x = false) l2 →
  find_one (l1 ++ l2) q = find_one l1 q.
Proof.
  intros Hl2. unfold find_one, find.
  rewrite filter_app, (filter_none _ l2), app_nil_r; [done|].
  eapply Forall_impl; [done|]. simpl. intros x ->. by intros [].
Qed.

(** Rewriting the [items] of a document of another session does not
    change what a session query finds. *)
Lemma cart_of_update_other (st : database) (s s' : string) (cart : dict)
    (id v : value) :
  identified (collection st "cart") →
  cart_of st s = Some cart → cart !! "_id" = Some id → s' ≠ s →
  cart_of (update_one "cart" [("_id", id)] "items" v st) s' = cart_of st s'.
Proof.
  intros Hident Hcart Hid Hne. unfold cart_of in *.
  rewrite collection_update_one.
  pose proof Hcart as (l1 & l2 & Hc & Hl1 & Hm)%find_one_Some.
  rewrite Hc in *. destruct Hident as [Hall Hnd].
  apply Forall_app in Hall as [_ Hall].
  apply Forall_cons_1 in Hall as [[o Ho] _].
  assert (id = VOid o) as ->.
  { apply doc_oid_Some in Ho. congruence. }
  rewrite update_one_set_found.
  - unfold find_one, find. rewrite !filter_app, !filter_cons.
    rewrite matches_session_set_items.
    apply matches_session in Hm.
    assert (matches (session_query s') cart = false) as Hs'.
    { destruct (matches (session_query s') cart) eqn:Hm'; [|done].
      apply matches_session in Hm'. congruence. }
    rewrite Hs'. by destruct (decide _) as [[]|].
  - apply Forall_forall. intros x Hx.
    destruct (matches [("_id", VOid o)] x) eqn:Hmx; [|done].
    apply matches_id in Hmx. rewrite fmap_app in Hnd.
    apply NoDup_app in Hnd as (_ & Hdisj & _).
    exfalso. apply (Hdisj (Some o)).
    + rewrite <- Hmx. by apply list_elem_of_fmap_2.
    + simpl. rewrite Ho. by left.
  - by apply matches_id.
Qed.

(** X2.  A request that is served changes nothing but the cart of its
    own session: every other collection of the database and the cart
    document of every other session are as before. *)
Theorem serve_frame (st st' : database) (r : request) :
  identified (collection st "cart") →
  serve st r = Ok st' →
  (∀ name, name ≠ "cart" → st' !! name = st !! name) ∧
  (∀ s, s ≠ request_session r → cart_of st' s = cart_of st s).
Proof.
  intros Hident Hserve.
  assert (st' = st ∨
          (cart_of st (request_session r) = None ∧
           (∃ new, new !! "session_id" = Some (VStr (request_session r)) ∧
                   collection st' "cart" = collection st "cart" ++ [new]) ∧
           ∀ name, name ≠ "cart" → st' !! name = st !! name) ∨
          ∃ cart id items,
            cart_of st (request_session r) = Some cart ∧
            cart !! "_id" = Some id ∧
            st' = update_one "cart" [("_id", id)] "items" (VList items) st)
    as Hcases.
  { destruct r as [new_id payload|payload]; cbn [serve request_session] in *.
    - destruct (add_to_cart _ _ _) as [[r st1]|] eqn:Hadd; [|done].
      cbn [res_bind snd] in Hserve. injection Hserve as <-.
      apply add_to_cart_Ok_inv in Hadd as [_ [(Hnone & Hc & Hfr)|Hupd]].
      + right. left. split_and!; [done| |done]. eexists. split; [|done].
        rewrite lookup_insert_ne; [|done]. apply lookup_insert_eq.
      + by right; right.
    - destruct (remove_from_cart _ _) as [[r st1]|] eqn:Hrem; [|done].
      cbn [res_bind snd] in Hserve. injection Hserve as <-.
      apply remove_from_cart_Ok_inv in Hrem as [_ [->|Hupd]].
      + by left.
      + by right; right. }
  destruct Hcases as [->|[(Hnone & (new & Hnew & Hc) & Hfr)
                         |(cart & id & items & Hcart & Hid & ->)]].
  - done.
  - split; [done|]. intros s Hs. unfold cart_of. rewrite Hc.
    apply find_one_app_r. constructor; [|done].
    destruct (matches (session_query s) new) eqn:Hm; [|done].
    apply matches_session in Hm. congruence.
  - split.
    + intros name Hne. unfold update_one. by rewrite lookup_alter_ne.
    + intros s Hs. by eapply cart_of_update_other.
Qed.

(** ** Removing twice, adding then removing, adding many times *)

Lemma filter_filter_same {A} (P : A → Prop) `{∀ x, Decision (P x)}
    (l : list A) :
  filter P (filter P l) = filter P l.
Proof.
  apply filter_all, Forall_forall. by intros x [Hx _]%list_elem_of_filter.
Qed.

Lemma update_one_set_same (c : list dict) (q : query) (k : string) (v : value) :
  Forall (λ d, matches q d = true → d !! k = Some v) c →
  update_one_set c q k v = c.
Proof.
  induction 1 as [|d c Hd _ IH]; [done|]. cbn [update_one_set].
  destruct (matches q d) eqn:Hm.
  - by rewrite insert_id; [|apply Hd].
  - by rewrite IH.
Qed.

(** X3.  Removing the same key a second time writes the items the first
    removal left: the database after the second call is the database
    after the first. *)
Theorem remove_from_cart_idempotent (st : database) (payload : CartRemove)
    (lines : list dict) :
  identified (collection st "cart") →
  session_lines st (remove_session_id payload) lines →
  ∃ st1,
    remove_from_cart (Some st) payload = Ok (status_ok, st1) ∧
    remove_from_cart (Some st1) payload = Ok (status_ok, st1).
Proof.
  intros Hident Hlines. unfold session_lines in Hlines.
  destruct (cart_of st (remove_session_id payload)) as [cart|] eqn:Hcart.
  - destruct (remove_from_cart_present _ _ _ _ Hident Hcart Hlines)
      as (st1 & Hrem1 & Hcart1 & Hident1).
    exists st1. split; [done|].
    destruct (cart_of_has_id _ _ _ Hident1 Hcart1) as [o Hid].
    rewrite (remove_from_cart_present_eq _ _ _ _ _ Hcart1 Hid
               (cart_lines_set_items _ _)).
    rewrite filter_filter_same. do 2 f_equal.
    apply map_eq. intros name. unfold update_one.
    destruct (decide (name = "cart")) as [->|Hne];
      [|by rewrite lookup_alter_ne].
    rewrite lookup_alter_eq.
    destruct (st1 !! "cart") as [c|] eqn:Hc; [|done]. simpl. f_equal.
    apply update_one_set_same.
    assert (collection st1 "cart" = c) as Hcoll
      by (unfold collection; by rewrite Hc).
    rewrite Hcoll in Hident1. destruct Hident1 as [_ Hnd].
    unfold cart_of in Hcart1. rewrite Hcoll in Hcart1.
    apply find_one_Some in Hcart1 as (l1 & l2 & -> & _ & _).
    apply Forall_forall. intros d Hd Hm%matches_id.
    assert (d = <["items" :=
              VList (VDict <$> filter
                (λ d, same_line d (remove_product_id payload)
                        (remove_variant payload) = false) lines)]> cart)
      as ->; [|apply lookup_insert_eq].
    apply doc_oid_Some in Hid.
    rewrite fmap_app, fmap_cons, Hid in Hnd.
    apply NoDup_app in Hnd as (_ & Hdisj & Hnd2).
    apply NoDup_cons in Hnd2 as [Hnotin _].
    apply elem_of_app in Hd as [Hd|[->|Hd]%elem_of_cons]; [|done|].
    + exfalso. apply (Hdisj (Some o)); [|by left].
      rewrite <- Hm. by apply list_elem_of_fmap_2.
    + exfalso. apply Hnotin. rewrite <- Hm. by apply list_elem_of_fmap_2.
  - exists st. by split; apply remove_from_cart_absent.
Qed.

(** X4.  Adding an item under a key the cart does not hold and then
    removing that key gives back the lines the cart had; the cart
    document exists afterwards, also when there was none before. *)
Theorem add_then_remove (st : database) (new_id : oid) (payload : CartUpsert)
    (rm : CartRemove) (lines : list dict) :
  remove_session_id rm = session_id payload →
  remove_product_id rm = product_id (item payload) →
  remove_variant rm = variant (item payload) →
  identified (collection st "cart") → fresh new_id (collection st "cart") →
  session_lines st (session_id payload) lines →
  Forall (λ d, line_key d ≠ payload_key (product_id (item payload))
                                        (variant (item payload))) lines →
  ∃ st1 st2 cart,
    add_to_cart (Some st) new_id payload = Ok (status_ok, st1) ∧
    remove_from_cart (Some st1) rm = Ok (status_ok, st2) ∧
    cart_of st2 (session_id payload) = Some cart ∧
    cart_lines cart lines.
Proof.
  intros Hs Hpid Hvar Hident Hfresh Hlines Hnone%not_same_line.
  destruct (add_to_cart_new_line _ new_id _ _ Hident Hlines Hnone Hfresh)
    as (st1 & Hadd & Hlines1 & Hident1).
  unfold session_lines in Hlines1.
  destruct (cart_of st1 (session_id payload)) as [cart1|] eqn:Hcart1;
    [|by destruct lines].
  rewrite <- Hs in Hcart1.
  destruct (remove_from_cart_present _ rm _ _ Hident1 Hcart1 Hlines1)
    as (st2 & Hrem & Hcart2 & _).
  rewrite Hs in Hcart2. rewrite Hpid, Hvar in Hcart2.
  exists st1, st2. eexists. split_and!; [done|done|done|].
  rewrite filter_app, filter_all, filter_cons_False, filter_nil, app_nil_r;
    [apply cart_lines_set_items| |done].
  assert (same_line (model_dump (item payload)) (product_id (item payload))
            (variant (item payload)) = true) as ->; [|done].
  apply same_line_spec, line_key_model_dump.
Qed.

Lemma add_repeatedly_merge (ids : list oid) (st : database)
    (payload : CartUpsert) (cart : dict) (k : Z) :
  0 ≤ quantity (item payload) → k ≤ 10 →
  identified (collection st "cart") →
  cart_of st (session_id payload) = Some cart →
  cart_lines cart [<["quantity" := VInt k]> (model_dump (item payload))] →
  ∃ st' cart',
    add_repeatedly st ids payload = Ok st' ∧
    cart_of st' (session_id payload) = Some cart' ∧
    cart_lines cart'
      [<["quantity" :=
           VInt (Z.min 10 (k + Z.of_nat (length ids) * quantity (item payload)))]>
         (model_dump (item payload))].
Proof.
  intros Hq. revert st cart k.
  induction ids as [|new_id ids IH]; intros st cart k Hk Hident Hcart Hlines.
  - exists st, cart. split_and!; [done|done|].
    cbn [length]. change (Z.of_nat 0) with 0.
    by rewrite Z.mul_0_l, Z.add_0_r, Z.min_r by lia.
  - cbn [add_repeatedly].
    edestruct (add_to_cart_merge st new_id payload cart [] []
                 (<["quantity" := VInt k]> (model_dump (item payload))) (NInt k))
      as (st1 & -> & Hcart1 & Hident1); [done..| | |].
    { apply same_line_spec.
      by rewrite line_key_set_quantity, line_key_model_dump. }
    { unfold get_default. by rewrite lookup_insert_eq. }
    cbn [res_bind snd]. rewrite insert_insert_eq in Hcart1.
    cbn [num_add min10 num_value app] in Hcart1.
    destruct (IH st1 _ (Z.min 10 (k + quantity (item payload)))
                ltac:(lia) Hident1 Hcart1 (cart_lines_set_items _ _))
      as (st' & cart' & Hrun & Hcart' & Hlines').
    exists st', cart'. split_and!; [done|done|].
    replace (Z.min 10 (k + Z.of_nat (length (new_id :: ids))
                             * quantity (item payload)))
      with (Z.min 10 (Z.min 10 (k + quantity (item payload))
                      + Z.of_nat (length ids) * quantity (item payload)));
      [done|].
    cbn [length]. nia.
Qed.

(** X5.  Serving the same valid [add_to_cart] payload [n] times, [n ≥ 1],
    for a session without cart leaves one line: the item as first
    submitted, with quantity [min(10, n * quantity)]. *)
Theorem add_repeatedly_quantity (st : database) (new_id : oid)
    (ids : list oid) (payload : CartUpsert) :
  valid_CartItem (item payload) →
  identified (collection st "cart") → fresh new_id (collection st "cart") →
  cart_of st (session_id payload) = None →
  ∃ st' cart,
    add_repeatedly st (new_id :: ids) payload = Ok st' ∧
    cart_of st' (session_id payload) = Some cart ∧
    cart_lines cart
      [<["quantity" :=
           VInt (Z.min 10 (Z.of_nat (S (length ids))
                           * quantity (item payload)))]>
         (model_dump (item payload))].
Proof.
  intros [_ Hq] Hident Hfresh Hnone. cbn [add_repeatedly].
  destruct (add_to_cart_create _ new_id _ Hnone) as (st1 & -> & Hc & Hcart1).
  cbn [res_bind snd].
  assert (identified (collection st1 "cart")) as Hident1.
  { rewrite Hc. by apply identified_create. }
  destruct (add_repeatedly_merge ids st1 payload _ (quantity (item payload))
              ltac:(lia) ltac:(lia) Hident1 Hcart1)
    as (st' & cart' & Hrun & Hcart' & Hlines').
  { unfold cart_lines, get_default.
    rewrite !lookup_insert_ne, lookup_singleton_eq by done.
    by rewrite insert_id by apply model_dump_quantity. }
  exists st', cart'. split_and!; [done|done|].
  replace (Z.of_nat (S (length ids)) * quantity (item payload))
    with (quantity (item payload)
          + Z.of_nat (length ids) * quantity (item payload)) by lia.
  done.
Qed.

(** ** [get_cart] on integer prices and on malformed lines *)

Lemma py_sum_ints (zs : list Z) (a : Z) :
  fold_left num_add (NInt <$> zs) (NInt a) = NInt (a + foldr Z.add 0 zs).
Proof.
  revert a. induction zs as [|z zs IH]; intros a.
  - simpl. by rewrite Z.add_0_r.
  - rewrite fmap_cons. cbn [fold_left foldr num_add]. rewrite IH.
    f_equal. lia.
Qed.

(** X6.  When every line holds an integer price and an integer quantity
    the subtotal is the exact integer sum of the products: [sum] stays
    in the integers and [round(n, 2)] gives an integer back as it is.
    A cart document without lines thus has subtotal integer [0]. *)
Theorem get_cart_integer_subtotal (st : database) (s : string) (cart : dict)
    (lines : list dict) (pqs : list (Z * Z)) :
  cart_of st s = Some cart → cart_lines cart lines →
  Forall2 (λ d pq, d !! "price" = Some (VInt pq.1) ∧
                   d !! "quantity" = Some (VInt pq.2)) lines pqs →
  ∃ view, get_cart (Some st) s = Ok view ∧
          view !! "subtotal"
          = Some (VInt (foldr Z.add 0 ((λ pq, pq.1 * pq.2) <$> pqs))).
Proof.
  intros Hcart Hlines Hpq.
  assert (Forall numeric_line lines ∧
          (λ pq, num_mul pq.1 pq.2) <$> (line_operands <$> lines)
          = NInt <$> ((λ pq : Z * Z, pq.1 * pq.2) <$> pqs)) as [Hnum Hops].
  { clear Hcart Hlines.
    induction Hpq as [|d [p q] lines pqs [Hp Hq] _ [IH1 IH2]]; [done|].
    simpl in Hp, Hq.
    pose proof (field_num_present d "price" 0 (NInt p) Hp) as Hp'.
    pose proof (field_num_present d "quantity" 1 (NInt q) Hq) as Hq'.
    split.
    - constructor; [|done]. split; by eexists.
    - rewrite !fmap_cons, IH2. unfold line_operands. by rewrite Hp', Hq'. }
  eexists. split; [by apply get_cart_present|].
  rewrite !lookup_insert_ne, lookup_singleton_eq by done.
  unfold subtotal_of, py_sum. by rewrite Hops, py_sum_ints.
Qed.




(** ** Listing, then fetching *)

Lemma find_one_by_id (c : list dict) (p : dict) (o : oid) :
  identified c → p ∈ c → doc_oid p = Some o →
  find_one c [("_id", VOid o)] = Some p.
Proof.
  intros [_ Hnd] Hp Ho.
  apply list_elem_of_split in Hp as (l1 & l2 & ->).
  apply find_one_Some. exists l1, l2. split_and!; [done| |by apply matches_id].
  apply Forall_forall. intros x Hx.
  destruct (matches [("_id", VOid o)] x) eqn:Hmx; [|done].
  apply matches_id in Hmx. rewrite fmap_app in Hnd.
  apply NoDup_app in Hnd as (_ & Hdisj & _).
  exfalso. apply (Hdisj (Some o)).
  - rewrite <- Hmx. by apply list_elem_of_fmap_2.
  - simpl. rewrite Ho. by left.
Qed.

(** X8.  Every document [list_products] returns carries in [id] the
    string form of a stored identifier, and when [ObjectId] reads that
    string back as the identifier, [get_product] on it returns the very
    same document. *)
Theorem listed_product_is_fetchable (st : database) (featured : option bool)
    (pubs : list value) (v : value) :
  identified (collection st "product") →
  list_products (Some st) featured !! "products" = Some (VList pubs) →
  v ∈ pubs →
  ∃ d o, v = VDict d ∧
         d !! "id" = Some (VStr (py_str (VOid o))) ∧
         (ObjectId (py_str (VOid o)) = Some o →
          get_product (Some st) (py_str (VOid o)) = Ok (Some d)).
Proof.
  intros Hident Hlist Hv. unfold list_products in Hlist.
  rewrite lookup_singleton_eq in Hlist.
  set (query := match featured with
                | Some b => [("featured", VBool b)]
                | None => []
                end) in Hlist.
  assert (pubs = (λ p, optional_dict (to_public_doc (Some p)))
                   <$> limit 50 (find (collection st "product") query)) as ->
    by congruence.
  apply list_elem_of_fmap in Hv as (p & -> & Hp).
  apply (subseteq_take 50) in Hp.
  apply list_elem_of_filter in Hp as [_ Hp].
  pose proof Hident as [Hall _].
  pose proof (proj1 (Forall_forall _ _) Hall _ Hp) as [o Ho].
  pose proof Ho as Hid%doc_oid_Some.
  rewrite (to_public_doc_with_id _ _ Hid). eexists _, o.
  split_and!; [done|apply lookup_insert_eq|].
  intros Hdec.
  rewrite (get_product_found _ _ _ _ Hdec (find_one_by_id _ _ _ Hident Hp Ho)).
  by rewrite (to_public_doc_with_id _ _ Hid).
Qed.

(** ** Featured collections *)

Lemma find_featured_sublist (c : list dict) :
  find c [("featured", VBool true)] `sublist_of` c.
Proof. unfold find. apply sublist_filter. Qed.

(** X9.  [featured_collections] answers with the projections of the
    documents whose [featured] is [True] of one collection, never of
    both: of [collection] as soon as it holds a featured document, and
    of [collections] only when [collection] gives none.  All of them
    are returned, without a cap. *)
Theorem featured_collections_spec (hasattr : string → bool) (st : database) :
  let F1 := filter (λ c, featured_is true c) (collection st "collection") in
  let F2 := filter (λ c, featured_is true c) (collection st "collections") in
  ∃ cols : list dict,
    featured_collections hasattr (Some st)
    = {["collections" := VList (public <$> cols)]} ∧
    Forall (λ c, c !! "featured" = Some (VBool true)) cols ∧
    (hasattr "collection" = true → F1 ≠ [] → cols = F1) ∧
    (hasattr "collection" = false ∨ F1 = [] →
     hasattr "collections" = true → cols = F2) ∧
    (hasattr "collection" = false ∨ F1 = [] →
     hasattr "collections" = false → cols = []).
Proof.
  intros F1 F2. unfold featured_collections. rewrite !find_featured.
  fold F1 F2.
  assert (Forall (λ c, c !! "featured" = Some (VBool true)) F1) as HF1.
  { apply Forall_forall. intros c [Hc _]%list_elem_of_filter.
    by apply featured_is_spec, Is_true_true. }
  assert (Forall (λ c, c !! "featured" = Some (VBool true)) F2) as HF2.
  { apply Forall_forall. intros c [Hc _]%list_elem_of_filter.
    by apply featured_is_spec, Is_true_true. }
  destruct (hasattr "collection"), (hasattr "collections");
    destruct F1 as [|c F1'] eqn:HF1e.
  all: eexists; split; [reflexivity|].
  all: split_and!; try done.
  all: try (by intros [?|?]).
  all: try (by intros [?|?] ?).
Qed.

(** ** The startup hook *)

Lemma collection_insert_many (st : database) (name : string)
    (docs : list (oid * dict)) :
  collection (insert_many name docs st) name
  = collection st name ++ ((λ x, <["_id" := VOid x.1]> x.2) <$> docs).
Proof. unfold collection at 1, insert_many. by rewrite lookup_insert_eq. Qed.

Lemma collection_insert_many_ne (st : database) (name name' : string)
    (docs : list (oid * dict)) :
  name ≠ name' →
  collection (insert_many name docs st) name' = collection st name'.
Proof.
  intros Hne. unfold collection, insert_many. by rewrite lookup_insert_ne.
Qed.

Lemma count_documents_all (c : list dict) :
  (count_documents c [] =? 0)%nat = bool_decide (c = []).
Proof. unfold count_documents. rewrite find_all. by destruct c. Qed.

Lemma seed_products_nonempty (ids : oid * oid * oid) (st : database) :
  collection (seed_products ids st) "product" ≠ [].
Proof.
  unfold seed_products. rewrite count_documents_all.
  case_bool_decide as Hc; [|done].
  rewrite collection_insert_many, Hc. done.
Qed.

Lemma seed_products_fixed (ids : oid * oid * oid) (st : database) :
  collection st "product" ≠ [] → seed_products ids st = st.
Proof.
  intros Hc. unfold seed_products. rewrite count_documents_all.
  by case_bool_decide.
Qed.

Lemma seed_collection_raise (new_id new_id' : oid) (st : database) (e : exn) :
  seed_collection new_id st = Raise e → seed_collection new_id' st = Raise e.
Proof.
  unfold seed_collection. destruct (_ =? _)%nat; [|done].
  by destruct (featured_product_ids st).
Qed.

Lemma seed_collection_Ok (new_id : oid) (st st' : database) :
  seed_collection new_id st = Ok st' →
  collection st' "product" = collection st "product" ∧
  ∀ new_id', seed_collection new_id' st' = Ok st'.
Proof.
  unfold seed_collection.
  destruct (_ =? _)%nat eqn:Hcount.
  - destruct (featured_product_ids st) as [pids|]; [|done]. cbn [res_bind].
    intros [= <-]. unfold insert_one. split.
    + by apply collection_insert_many_ne.
    + intros new_id'. rewrite collection_insert_many.
      unfold count_documents, find. rewrite filter_app, length_app, fmap_cons.
      rewrite filter_cons_True.
      { cbn [length]. by rewrite Nat.add_succ_r. }
      apply Is_true_true, matches_single.
      eexists. split; [|by apply field_is_VStr].
      cbn [fst snd]. rewrite lookup_insert_ne by done. unfold aw_collection.
      rewrite lookup_insert_ne by done. apply lookup_insert_eq.
  - intros [= <-]. split; [done|]. intros new_id'. by rewrite Hcount.
Qed.

(** X10.  Running [seed_demo] again, with whatever identifiers the store
    would hand out, changes nothing: the database after the second run
    is the database after the first. *)
Theorem seed_demo_idempotent (db : option database) (ids ids' : oid * oid * oid)
    (new_id new_id' : oid) :
  seed_demo (seed_demo db ids new_id) ids' new_id' = seed_demo db ids new_id.
Proof.
  destruct db as [st|]; [|done]. cbn [seed_demo].
  pose proof (seed_products_nonempty ids st) as Hne.
  destruct (seed_collection new_id (seed_products ids st)) as [st2|e] eqn:Hsc.
  - apply seed_collection_Ok in Hsc as [Hprod Hagain].
    cbn [seed_demo]. rewrite seed_products_fixed by by rewrite Hprod.
    by rewrite Hagain.
  - cbn [seed_demo]. rewrite seed_products_fixed by done.
    by rewrite (seed_collection_raise _ new_id' _ _ Hsc).
Qed.

(** X11.  [seed_demo] only adds: in every collection the documents
    stored before are still there, unchanged and first; nothing but
    [product] and [collections] is written, and a [product] collection
    that holds a document is left as it is. *)
Theorem seed_demo_only_adds (st st' : database) (ids : oid * oid * oid)
    (new_id : oid) :
  seed_demo (Some st) ids new_id = Some st' →
  (∀ name, collection st name `prefix_of` collection st' name) ∧
  (∀ name, name ≠ "product" → name ≠ "collections" →
           st' !! name = st !! name) ∧
  (collection st "product" ≠ [] →
   collection st' "product" = collection st "product").
Proof.
  cbn [seed_demo]. intros Hseed.
  assert ((∀ name, collection st name
                   `prefix_of` collection (seed_products ids st) name) ∧
          (∀ name, name ≠ "product" →
                   seed_products ids st !! name = st !! name)) as [Hp1 Hp2].
  { unfold seed_products. destruct (_ =? _)%nat; [|done]. split.
    - intros name. destruct (decide (name = "product")) as [->|Hne].
      + rewrite collection_insert_many. by eexists.
      + by rewrite collection_insert_many_ne.
    - intros name Hne. unfold insert_many. by rewrite lookup_insert_ne. }
  assert (∀ st1 st2, seed_collection new_id st1 = Ok st2 →
            (∀ name, collection st1 name `prefix_of` collection st2 name) ∧
            (∀ name, name ≠ "collections" → st2 !! name = st1 !! name))
    as Hcoll.
  { intros st1 st2. unfold seed_collection. destruct (_ =? _)%nat.
    - destruct (featured_product_ids st1) as [pids|]; [|done].
      cbn [res_bind]. intros [= <-]. unfold insert_one. split.
      + intros name. destruct (decide (name = "collections")) as [->|Hne].
        * rewrite collection_insert_many. by eexists.
        * by rewrite collection_insert_many_ne.
      + intros name Hne. unfold insert_many. by rewrite lookup_insert_ne.
    - by intros [= <-]. }
  assert ((∀ name, collection st name `prefix_of` collection st' name) ∧
          (∀ name, name ≠ "product" → name ≠ "collections" →
                   st' !! name = st !! name) ∧
          collection st' "product"
          = collection (seed_products ids st) "product") as (Hpre & Hfr & Hprod).
  { destruct (seed_collection new_id (seed_products ids st)) as [st2|e] eqn:Hsc;
      injection Hseed as <-.
    - destruct (Hcoll _ _ Hsc) as [Hc1 Hc2]. split_and!.
      + intros name. etrans; [apply Hp1|apply Hc1].
      + intros name Hn1 Hn2. rewrite Hc2 by done. by apply Hp2.
      + unfold collection. by rewrite Hc2.
    - split_and!; [done| |done]. intros name Hn1 _. by apply Hp2. }
  split_and!; [done|done|].
  intros Hne. rewrite Hprod. by rewrite seed_products_fixed.
Qed.

(** X12.  On a database with no products and no collections the hook
    stores the three demo products and the Autumn/Winter collection,
    whose [product_ids] are the string forms of the identifiers of the
    two featured products.  The hook writes to [collections] and
    [featured_collections] reads [collection] first: it serves the seeded
    collection through its fallback.  [list_products] with
    [featured=True] then returns the overcoat and the shirt, not the
    denim. *)
Theorem seed_demo_then_routes (hasattr : string → bool) (st : database)
    (id1 id2 id3 new_id : oid) :
  collection st "product" = [] →
  collection st "collections" = [] →
  collection st "collection" = [] →
  hasattr "collections" = true →
  ∃ st',
    seed_demo (Some st) (id1, id2, id3) new_id = Some st' ∧
    featured_collections hasattr (Some st')
    = {["collections" :=
          VList [public (<["_id" := VOid new_id]>
                           (aw_collection [VStr (py_str (VOid id1));
                                           VStr (py_str (VOid id2))]))]]} ∧
    list_products (Some st') (Some true)
    = {["products" :=
          VList [public (<["_id" := VOid id1]> demo_overcoat);
                 public (<["_id" := VOid id2]> demo_shirt)]]}.
Proof.
  intros Hprod Hcols Hcol Hhas.
  set (st1 := insert_many "product"
                [(id1, demo_overcoat); (id2, demo_shirt); (id3, demo_denim)] st).
  assert (seed_products (id1, id2, id3) st = st1) as Hst1.
  { unfold seed_products. rewrite count_documents_all, Hprod. done. }
  assert (collection st1 "product"
          = [<["_id" := VOid id1]> demo_overcoat;
             <["_id" := VOid id2]> demo_shirt;
             <["_id" := VOid id3]> demo_denim]) as Hprod1.
  { unfold st1. rewrite collection_insert_many, Hprod. done. }
  assert (find (collection st1 "product") [("featured", VBool true)]
          = [<["_id" := VOid id1]> demo_overcoat;
             <["_id" := VOid id2]> demo_shirt]) as Hfeat.
  { rewrite Hprod1. reflexivity. }
  set (aw := aw_collection [VStr (py_str (VOid id1)); VStr (py_str (VOid id2))]).
  assert (seed_collection new_id st1 = Ok (insert_one "collections" aw new_id st1))
    as Hsc.
  { unfold seed_collection, featured_product_ids.
    unfold st1 at 1. rewrite collection_insert_many_ne, Hcols by done.
    rewrite Hfeat. reflexivity. }
  exists (insert_one "collections" aw new_id st1).
  split_and!.
  - cbn [seed_demo]. by rewrite Hst1, Hsc.
  - unfold featured_collections, insert_one.
    rewrite collection_insert_many, collection_insert_many_ne by done.
    unfold st1 at 1 2.
    rewrite !collection_insert_many_ne, Hcol, Hcols, Hhas by done.
    destruct (hasattr "collection"); reflexivity.
  - unfold list_products, insert_one.
    rewrite collection_insert_many_ne, Hfeat by done. reflexivity.
Qed.

(** ** What [get_product] can answer, and the view after a first add *)

(** X13.  With a database at hand [get_product] never answers 404:
    whatever the identifier, it returns a document of the [product]
    collection, projected, or raises 400 "Invalid id".  404 is raised
    only when there is no database. *)
Theorem get_product_outcomes (st : database) (product_id : string) :
  get_product None product_id = Raise (HTTPException 404 "Not found") ∧
  (get_product (Some st) product_id = Raise (HTTPException 400 "Invalid id") ∨
   ∃ prod o, prod ∈ collection st "product" ∧
             ObjectId product_id = Some o ∧
             prod !! "_id" = Some (VOid o) ∧
             get_product (Some st) product_id = Ok (to_public_doc (Some prod))).
Proof.
  split; [done|].
  destruct (ObjectId product_id) as [o|] eqn:Hoid;
    [|left; by apply get_product_invalid_is_400].
  destruct (find_one (collection st "product") [("_id", VOid o)])
    as [prod|] eqn:Hfind; [|left; unfold get_product; by rewrite Hoid, Hfind].
  right. exists prod, o.
  pose proof Hfind as (l1 & l2 & Hc & _ & Hm)%find_one_Some.
  split_and!; [|done| |by eapply get_product_found].
  - rewrite Hc. apply elem_of_app. right. by left.
  - by apply doc_oid_Some, matches_id.
Qed.

(** X14.  The view of a cart right after its first item was added: the
    identifier the store gave the cart, the one item as submitted, and
    the subtotal [round(0 + price * quantity, 2)]. *)
Theorem get_cart_after_first_add (st : database) (new_id : oid)
    (payload : CartUpsert) :
  cart_of st (session_id payload) = None →
  ∃ st' view,
    add_to_cart (Some st) new_id payload = Ok (status_ok, st') ∧
    get_cart (Some st') (session_id payload) = Ok view ∧
    view !! "id" = Some (VStr (py_str (VOid new_id))) ∧
    view !! "items" = Some (VList [VDict (model_dump (item payload))]) ∧
    view !! "subtotal"
    = Some (VFloat (round2 (fadd (float_of_Z 0)
                              (fmul (price (item payload))
                                    (float_of_Z (quantity (item payload))))))).
Proof.
  intros Hnone.
  destruct (add_to_cart_create _ new_id _ Hnone) as (st' & Hadd & _ & Hcart).
  exists st'. eexists. split; [done|]. split.
  - apply (get_cart_present _ _ _ [model_dump (item payload)] Hcart).
    + unfold cart_lines, get_default.
      by rewrite !lookup_insert_ne, lookup_singleton_eq.
    + constructor; [|done]. split; by eexists.
  - split_and!.
    + rewrite lookup_insert_eq. unfold get. by rewrite lookup_insert_eq.
    + rewrite lookup_insert_ne by done. by rewrite lookup_insert_eq.
    + by rewrite !lookup_insert_ne, lookup_singleton_eq.
Qed.

End FurtherProperties.

(** * The further properties at the example data *)

Section FurtherInstances.
#[local] Existing Instances exact_float hex_bson example_str.

Lemma identified_db_catalog : identified (collection db_catalog "product").
Proof.
  split.
  - repeat constructor; by eexists.
  - apply NoDup_cons. split; [|apply NoDup_singleton].
    intros Hin%list_elem_of_singleton. discriminate Hin.
Qed.

Lemma serve_frame_witness :
  identified (collection db_A "cart") ∧
  serve db_A (AddItem other_oid add_B) = Ok db_AB ∧
  (∀ name, name ≠ "cart" → db_AB !! name = db_A !! name) ∧
  (∀ s, s ≠ "s1" → cart_of db_AB s = cart_of db_A s).
Proof.
  split; [apply identified_db_A|]. split; [reflexivity|].
  apply (serve_frame db_A db_AB (AddItem other_oid add_B));
    [apply identified_db_A|reflexivity].
Defined.

Lemma remove_from_cart_idempotent_witness :
  ∃ st1, remove_from_cart (Some db_A) remove_coat = Ok (status_ok, st1) ∧
         remove_from_cart (Some st1) remove_coat = Ok (status_ok, st1).
Proof.
  apply (remove_from_cart_idempotent db_A remove_coat [model_dump item_A]);
    [apply identified_db_A|reflexivity].
Defined.

Lemma add_then_remove_witness :
  ∃ st1 st2 cart,
    add_to_cart (Some empty_db) cart_oid add_A = Ok (status_ok, st1) ∧
    remove_from_cart (Some st1) remove_coat = Ok (status_ok, st2) ∧
    cart_of st2 "s1" = Some cart ∧
    cart_lines cart [].
Proof.
  apply (add_then_remove empty_db cart_oid add_A remove_coat []).
  - reflexivity.
  - reflexivity.
  - reflexivity.
  - apply identified_empty_db.
  - apply not_elem_of_nil.
  - reflexivity.
  - constructor.
Defined.

Lemma add_repeatedly_quantity_witness :
  ∃ st' cart,
    add_repeatedly empty_db [cart_oid; other_oid; other_oid] add_A = Ok st' ∧
    cart_of st' "s1" = Some cart ∧
    cart_lines cart [<["quantity" := VInt (Z.min 10 (3 * 1))]>
                       (model_dump item_A)].
Proof.
  apply (add_repeatedly_quantity empty_db cart_oid [other_oid; other_oid] add_A).
  - split; [eexists; reflexivity|simpl; lia].
  - apply identified_empty_db.
  - apply not_elem_of_nil.
  - reflexivity.
Defined.

Lemma get_cart_integer_subtotal_witness :
  ∃ view, get_cart (Some db_int) "s1" = Ok view ∧
          view !! "subtotal" = Some (VInt (7 * 3 + (5 * 2 + 0))).
Proof.
  apply (get_cart_integer_subtotal db_int "s1" cart_int
           [line_int 7 3; line_int 5 2] [(7, 3); (5, 2)]).
  - reflexivity.
  - reflexivity.
  - repeat constructor.
Defined.


Lemma listed_product_is_fetchable_witness :
  ∃ d o, public coat_doc = VDict d ∧
         d !! "id" = Some (VStr (py_str (VOid o))) ∧
         (ObjectId (py_str (VOid o)) = Some o →
          get_product (Some db_catalog) (py_str (VOid o)) = Ok (Some d)).
Proof.
  apply (listed_product_is_fetchable db_catalog (Some true) [public coat_doc]).
  - apply identified_db_catalog.
  - reflexivity.
  - by left.
Defined.

Lemma seed_demo_only_adds_witness :
  seed_demo (Some empty_db) demo_ids cart_oid = Some db_seeded ∧
  (∀ name, collection empty_db name `prefix_of` collection db_seeded name) ∧
  (∀ name, name ≠ "product" → name ≠ "collections" →
           db_seeded !! name = empty_db !! name) ∧
  (collection empty_db "product" ≠ [] →
   collection db_seeded "product" = collection empty_db "product").
Proof.
  split; [reflexivity|].
  apply (seed_demo_only_adds empty_db db_seeded demo_ids cart_oid).
  reflexivity.
Defined.

Lemma seed_demo_then_routes_witness :
  ∃ st',
    seed_demo (Some empty_db) (coat_oid, shirt_oid, other_oid) cart_oid
    = Some st' ∧
    featured_collections (λ _, true) (Some st')
    = {["collections" :=
          VList [public (<["_id" := VOid cart_oid]>
                           (aw_collection [VStr (py_str (VOid coat_oid));
                                           VStr (py_str (VOid shirt_oid))]))]]} ∧
    list_products (Some st') (Some true)
    = {["products" :=
          VList [public (<["_id" := VOid coat_oid]> demo_overcoat);
                 public (<["_id" := VOid shirt_oid]> demo_shirt)]]}.
Proof.
  apply (seed_demo_then_routes (λ _, true) empty_db coat_oid shirt_oid
           other_oid cart_oid); reflexivity.
Defined.

Lemma get_cart_after_first_add_witness :
  ∃ st' view,
    add_to_cart (Some empty_db) cart_oid add_A = Ok (status_ok, st') ∧
    get_cart (Some st') "s1" = Ok view ∧
    view !! "id" = Some (VStr cart_id) ∧
    view !! "items" = Some (VList [VDict (model_dump item_A)]) ∧
    view !! "subtotal" = Some (VFloat (inject_Z 100)).
Proof.
  exact (get_cart_after_first_add empty_db cart_oid add_A eq_refl).
Defined.

End FurtherInstances.
